(** * Beehav_: the behaviour tracker's repository and aggregation engine

    A shallow embedding of [engine.py] (class [BehaviorTracker]): the six
    tables held in [self.dataframes], their CSV files, the three mutating
    operations and [calculate_all_averages].

    Conventions of the embedding.
    - Python [int] is [Z]; [str] is [string], read over the ASCII repertoire
      (so [str.lower] touches the letters A-Z only and [str.strip] removes
      ASCII white space).  Labels, names and notes are strings; IDs, scores
      and dates are values of [pyval]: [None], an [int], a [str] or a date
      object.
    - A DataFrame is the list of its rows, a row being a record of its cells.
      The [daily_scores] frame also carries its column index, because
      [calculate_all_averages] adds columns to it.
    - A CSV file holds the frame that was last written to it: [to_csv] is
      modelled as storing the value of the frame.
    - The float [AverageScore] is modelled by the exact rational mean whose
      rounding it is.
    - Library calls whose full behaviour is outside the repository
      ([int] on a string, [pandas.to_datetime]) are the fields of a record
      [Runtime], together with the laws the code relies on. *)

From Stdlib Require Import ZArith List String Ascii Bool Lia QArith Sorted Permutation.
Import ListNotations.
Open Scope Z_scope.

(** ** Calendar arithmetic

    [datetime.date] of CPython: the proleptic Gregorian ordinal and
    [isocalendar], which pandas' [Series.dt.isocalendar] follows. *)

Module Calendar.

Record date := mkDate { year : Z; month : Z; day : Z }.

Definition is_leap (y : Z) : bool :=
  (y mod 4 =? 0) && (negb (y mod 100 =? 0) || (y mod 400 =? 0)).

Definition days_before_year (y : Z) : Z :=
  let y' := y - 1 in y' * 365 + y' / 4 - y' / 100 + y' / 400.

(** Index 0 is a placeholder: months count from 1. *)
Definition DAYS_IN_MONTH : list Z :=
  [-1; 31; 28; 31; 30; 31; 30; 31; 31; 30; 31; 30; 31].

Definition DAYS_BEFORE_MONTH : list Z :=
  [-1; 0; 31; 59; 90; 120; 151; 181; 212; 243; 273; 304; 334].

Definition days_in_month (y m : Z) : Z :=
  if (m =? 2) && is_leap y then 29 else nth (Z.to_nat m) DAYS_IN_MONTH 0.

Definition days_before_month (y m : Z) : Z :=
  nth (Z.to_nat m) DAYS_BEFORE_MONTH 0 + (if (2 <? m) && is_leap y then 1 else 0).

Definition ymd2ord (d : date) : Z :=
  days_before_year (year d) + days_before_month (year d) (month d) + day d.

(** Monday is 0, Sunday is 6. *)
Definition weekday (d : date) : Z := (ymd2ord d + 6) mod 7.

Definition THURSDAY : Z := 3.

Definition iso_week1_monday (y : Z) : Z :=
  let firstday := ymd2ord (mkDate y 1 1) in
  let firstweekday := (firstday + 6) mod 7 in
  let week1monday := firstday - firstweekday in
  if THURSDAY <? firstweekday then week1monday + 7 else week1monday.

(** [date.isocalendar()]: (ISO year, ISO week, ISO weekday). *)
Definition isocalendar (d : date) : Z * Z * Z :=
  let y := year d in
  let week1monday := iso_week1_monday y in
  let today := ymd2ord d in
  let week := (today - week1monday) / 7 in
  let wday := (today - week1monday) mod 7 in
  if week <? 0 then
    let y := y - 1 in
    let week1monday := iso_week1_monday y in
    (y, (today - week1monday) / 7 + 1, (today - week1monday) mod 7 + 1)
  else if (52 <=? week) && (iso_week1_monday (y + 1) <=? today) then
    (y + 1, 1, wday + 1)
  else (y, week + 1, wday + 1).

Definition iso_year (d : date) : Z := fst (fst (isocalendar d)).
Definition iso_week (d : date) : Z := snd (fst (isocalendar d)).

Definition valid_dateb (d : date) : bool :=
  (1 <=? month d) && (month d <=? 12) &&
  (1 <=? day d) && (day d <=? days_in_month (year d) (month d)).

Definition valid_date (d : date) : Prop := valid_dateb d = true.

(** The ISO 8601 week date, after the standard's words: weeks start on
    Monday, and week 01 of a year is the week that holds 4 January (the
    week with the year's first Thursday).  A date belongs to the ISO year
    [Y] whose week 01 starts on or before it while the next year's week 01
    starts after it; its week number counts the weeks from there. *)
Definition iso8601_week1_start (Y : Z) : Z :=
  let jan4 := ymd2ord (mkDate Y 1 4) in jan4 - (jan4 + 6) mod 7.

Definition iso8601_week_date (d : date) (Y W : Z) : Prop :=
  iso8601_week1_start Y <= ymd2ord d < iso8601_week1_start (Y + 1) /\
  W = (ymd2ord d - iso8601_week1_start Y) / 7 + 1.

End Calendar.

Import Calendar.

(** ** Text

    [str.strip], [str.lower] and [strftime("%Y-%m-%d")].  A [str] is held
    as its UTF-8 bytes.  [strip] and [lower] are Python's on text below 128
    ([ascii_only]); the bytes of other characters are left as they are,
    where Python also strips the white space and lowers the capitals that
    Unicode has beyond ASCII. *)

Module Text.

Definition code (c : ascii) : Z := Z.of_N (N_of_ascii c).

(** White space of [str.isspace] below 128: TAB to CR, FS to US and space. *)
Definition isspace (c : ascii) : bool :=
  ((9 <=? code c) && (code c <=? 13)) || ((28 <=? code c) && (code c <=? 32)).

Definition isupper (c : ascii) : bool := (65 <=? code c) && (code c <=? 90).

Definition lower_char (c : ascii) : ascii :=
  if isupper c then ascii_of_N (Z.to_N (code c + 32)) else c.

Fixpoint lower (s : string) : string :=
  match s with
  | EmptyString => EmptyString
  | String c s' => String (lower_char c) (lower s')
  end.

Fixpoint lstrip (s : string) : string :=
  match s with
  | EmptyString => EmptyString
  | String c s' => if isspace c then lstrip s' else s
  end.

Fixpoint rstrip (s : string) : string :=
  match s with
  | EmptyString => EmptyString
  | String c s' =>
      match rstrip s' with
      | EmptyString => if isspace c then EmptyString else String c EmptyString
      | r => String c r
      end
  end.

Definition strip (s : string) : string := rstrip (lstrip s).






(** Python's truth value of a string. *)
Definition nonempty (s : string) : bool :=
  match s with EmptyString => false | String _ _ => true end.

Definition digit (n : Z) : ascii := ascii_of_N (Z.to_N (48 + n mod 10)).

Definition digits2 (n : Z) : string :=
  String (digit (n / 10)) (String (digit n) EmptyString).

Definition digits4 (n : Z) : string :=
  String (digit (n / 1000)) (String (digit (n / 100)) (digits2 n)).

(** [strftime("%Y-%m-%d")] on the years pandas' timestamps have (four
    digits). *)
Definition strftime_Ymd (d : date) : string :=
  (digits4 (year d) ++ "-" ++ digits2 (month d) ++ "-" ++ digits2 (day d))%string.



End Text.

Import Text.

(** ** Values, exceptions and the library runtime *)

(** A Python [float]: a finite value, held as the rational it is, an
    infinity, or a NaN. *)
Inductive pyfloat :=
| Finite (q : Q)
| Infinity (negative : bool)
| NaN.

(** The Python values the operations are called with. *)
Inductive pyval :=
| PyNone
| PyInt (n : Z)
| PyFloat (x : pyfloat)
| PyStr (s : string)
| PyDate (d : date).

Inductive exn := ValueError | TypeError | AttributeError | OverflowError.

Inductive outcome (A : Type) :=
| Return (a : A)
| Raise (e : exn).
Arguments Return {A} a.
Arguments Raise {A} e.

(** A pandas [Timestamp]: a calendar date and the nanoseconds into it. *)
Record timestamp := mkStamp { ts_date : date; ts_nanos : Z }.

(** A cell of the [Date] column: the text that was logged or loaded, or,
    once converted, a timestamp or [NaT]. *)
Inductive date_cell :=
| DateStr (s : string)
| DateStamp (t : timestamp)
| DateNaT.

Definition datetime64 (o : option timestamp) : date_cell :=
  match o with Some t => DateStamp t | None => DateNaT end.

(** What [pandas.to_datetime] returns for one value: a timestamp, [NaT],
    or [None] (for [None]). *)
Inductive scalar_datetime :=
| Stamp (t : timestamp)
| NaT
| NoneValue.

(** What the code takes from Python and pandas without defining it.
    - [int_of_str s] is [int(s)] on a string; [None] is its [ValueError].
    - [to_datetime v] is [pandas.to_datetime] on one value: it raises or
      returns.
    - [to_datetime_series col] is [pandas.to_datetime] on a column; [None]
      is the [ValueError] of a column it cannot convert.  The result is a
      [datetime64] column of the same length, and a column that is already
      [datetime64] comes back as it is. *)
Record Runtime := {
  int_of_str : string -> option Z;
  to_datetime : pyval -> outcome scalar_datetime;
  to_datetime_series : list date_cell -> option (list (option timestamp));
  to_datetime_series_length :
    forall col out, to_datetime_series col = Some out -> List.length out = List.length col;
  to_datetime_series_datetime64 :
    forall out, to_datetime_series (map datetime64 out) = Some out
}.

(** [int(v)]: a finite float is cut towards zero, an infinity is an
    [OverflowError], a NaN a [ValueError]. *)
Definition py_int (R : Runtime) (v : pyval) : outcome Z :=
  match v with
  | PyInt n => Return n
  | PyFloat (Finite q) => Return (Z.quot (Qnum q) (Zpos (Qden q)))
  | PyFloat (Infinity _) => Raise OverflowError
  | PyFloat NaN => Raise ValueError
  | PyStr s =>
      match int_of_str R s with
      | Some n => Return n
      | None => Raise ValueError
      end
  | PyNone | PyDate _ => Raise TypeError
  end.

(** [except (ValueError, TypeError)]. *)
Definition is_ValueError_or_TypeError (e : exn) : bool :=
  match e with
  | ValueError | TypeError => true
  | AttributeError | OverflowError => false
  end.

(** ** The tables *)

Record subject := mkSubject {
  SubjectID : Z;
  SubjectLabel : string;
  DateCreated : string
}.

Record definition := mkDefinition {
  DefinitionID : Z;
  def_SubjectID : Z;
  BehaviorName : string;
  Description : string
}.

(** A row of [daily_scores].  The last four cells are those of the columns
    [Year], [WeekOfYear], [Month] and [Half] that the aggregation adds;
    [None] is a missing value. *)
Record score := mkScore {
  LogID : Z;
  score_DefinitionID : Z;
  Date : date_cell;
  Score : Z;
  Notes : string;
  score_Year : option Z;
  score_WeekOfYear : option Z;
  score_Month : option Z;
  score_Half : option Z
}.

(** The [daily_scores] frame: its rows, and the names of the columns it has
    besides the five of its schema. *)
Record scores_frame := mkScores {
  rows : list score;
  extra_columns : list string
}.

(** A row of an averages table.  [Period] is the column [WeekOfYear],
    [Month] or [Half], by the table. *)
Record average := mkAverage {
  AverageID : Z;
  avg_DefinitionID : Z;
  Year : Z;
  Period : Z;
  AverageScore : Q;
  DataPointsCount : Z
}.

Definition WeekOfYear := Period.
Definition Month := Period.
Definition Half := Period.

(** The six tables of [DATABASE_SCHEMA]. *)
Record tables := mkTables {
  subjects : list subject;
  definitions : list definition;
  daily_scores : scores_frame;
  weekly_averages : list average;
  monthly_averages : list average;
  semi_annual_averages : list average
}.

Inductive table_name :=
| t_subjects | t_definitions | t_daily_scores
| t_weekly_averages | t_monthly_averages | t_semi_annual_averages.

(** A tracker: [self.dataframes] and the CSV files on disk. *)
Record tracker := mkTracker {
  dataframes : tables;
  files : tables
}.

(** ** The repository *)

Section Repository.

Variable R : Runtime.

Definition set_table (n : table_name) (src dst : tables) : tables :=
  match n with
  | t_subjects =>
      mkTables (subjects src) (definitions dst) (daily_scores dst)
        (weekly_averages dst) (monthly_averages dst) (semi_annual_averages dst)
  | t_definitions =>
      mkTables (subjects dst) (definitions src) (daily_scores dst)
        (weekly_averages dst) (monthly_averages dst) (semi_annual_averages dst)
  | t_daily_scores =>
      mkTables (subjects dst) (definitions dst) (daily_scores src)
        (weekly_averages dst) (monthly_averages dst) (semi_annual_averages dst)
  | t_weekly_averages =>
      mkTables (subjects dst) (definitions dst) (daily_scores dst)
        (weekly_averages src) (monthly_averages dst) (semi_annual_averages dst)
  | t_monthly_averages =>
      mkTables (subjects dst) (definitions dst) (daily_scores dst)
        (weekly_averages dst) (monthly_averages src) (semi_annual_averages dst)
  | t_semi_annual_averages =>
      mkTables (subjects dst) (definitions dst) (daily_scores dst)
        (weekly_averages dst) (monthly_averages dst) (semi_annual_averages src)
  end.

(** [_save_df]: the frame in memory overwrites its file. *)
Definition save_df (df_name : table_name) (st : tracker) : tracker :=
  mkTracker (dataframes st) (set_table df_name (dataframes st) (files st)).

(** [self.dataframes[name] = ...]: the files are not touched. *)
Definition assign (f : tables -> tables) (st : tracker) : tracker :=
  mkTracker (f (dataframes st)) (files st).

Definition with_subjects (l : list subject) (t : tables) : tables :=
  mkTables l (definitions t) (daily_scores t)
    (weekly_averages t) (monthly_averages t) (semi_annual_averages t).

Definition with_definitions (l : list definition) (t : tables) : tables :=
  mkTables (subjects t) l (daily_scores t)
    (weekly_averages t) (monthly_averages t) (semi_annual_averages t).

Definition with_daily_scores (f : scores_frame) (t : tables) : tables :=
  mkTables (subjects t) (definitions t) f
    (weekly_averages t) (monthly_averages t) (semi_annual_averages t).

Definition with_averages (w m h : list average) (t : tables) : tables :=
  mkTables (subjects t) (definitions t) (daily_scores t) w m h.

(** [DataFrame.empty] of a frame given by its rows. *)
Definition empty {A : Type} (df : list A) : bool :=
  match df with [] => true | _ :: _ => false end.

(** [_get_next_id]: 1 on an empty frame, else the column's maximum plus 1,
    as the Python [int] it is, which has no bound; the column it goes
    into is [int64] (see [ids_below_int64_max]). *)
Definition get_next_id {A : Type} (df : list A) (id_column : A -> Z) : Z :=
  match map id_column df with
  | [] => 1
  | x :: xs => fold_left Z.max xs x + 1
  end.

(** [add_subject]: a label that is not a [str] has no [strip], which is an
    [AttributeError] on line 62.  The [SubjectLabel] column holds text, as
    it does in a session that added its subjects itself; on a column that
    [read_csv] loaded as numbers, [.str] on line 65 is an [AttributeError]
    as well. *)
Definition add_subject (now : string) (subject_label : pyval) (st : tracker)
  : outcome unit * tracker :=
  match subject_label with
  | PyStr subject_label =>
      let subject_label := strip subject_label in
      if negb (nonempty subject_label) then (Return tt, st) else
      let subjects_df := subjects (dataframes st) in
      if negb (empty (filter (fun r => (lower (SubjectLabel r) =? lower subject_label)%string)
                             subjects_df))
      then (Return tt, st) else
      let new_id := get_next_id subjects_df SubjectID in
      let new_subject := mkSubject new_id subject_label now in
      let st := assign (with_subjects (subjects_df ++ [new_subject])) st in
      (Return tt, save_df t_subjects st)
  | PyNone | PyInt _ | PyFloat _ | PyDate _ => (Raise AttributeError, st)
  end.

Definition add_behavior_definition (subject_id : pyval) (behavior_name description : string)
    (st : tracker) : outcome unit * tracker :=
  if negb (nonempty behavior_name) || negb (nonempty (strip behavior_name))
  then (Return tt, st) else
  match py_int R subject_id with
  | Raise e => if is_ValueError_or_TypeError e then (Return tt, st) else (Raise e, st)
  | Return subject_id =>
      let subjects_df := subjects (dataframes st) in
      if empty (filter (fun r => SubjectID r =? subject_id) subjects_df)
      then (Return tt, st) else
      let new_id := get_next_id (definitions (dataframes st)) DefinitionID in
      let new_definition :=
        mkDefinition new_id subject_id (strip behavior_name) (strip description) in
      let st := assign (with_definitions
                          (definitions (dataframes st) ++ [new_definition])) st in
      (Return tt, save_df t_definitions st)
  end.

(** [pd.concat] of [daily_scores] with a one-row frame of the schema's five
    columns: the new row has no value in the other columns. *)
Definition concat_score (df : scores_frame) (log_id definition_id : Z) (date : string)
    (score : Z) (notes : string) : scores_frame :=
  mkScores
    (rows df ++ [mkScore log_id definition_id (DateStr date) score notes None None None None])
    (extra_columns df).

Definition log_score (definition_id date score : pyval) (notes : string) (st : tracker)
  : outcome unit * tracker :=
  match py_int R definition_id with
  | Raise e => if is_ValueError_or_TypeError e then (Return tt, st) else (Raise e, st)
  | Return definition_id =>
  match py_int R score with
  | Raise e => if is_ValueError_or_TypeError e then (Return tt, st) else (Raise e, st)
  | Return score =>
      if negb ((1 <=? score) && (score <=? 10)) then (Return tt, st) else
      if empty (filter (fun r => DefinitionID r =? definition_id)
                       (definitions (dataframes st)))
      then (Return tt, st) else
      let new_id := get_next_id (rows (daily_scores (dataframes st))) LogID in
      match to_datetime R date with
      | Raise e => (Raise e, st)
      | Return NaT => (Raise ValueError, st)
      | Return NoneValue => (Raise AttributeError, st)
      | Return (Stamp t) =>
          let df := concat_score (daily_scores (dataframes st))
                      new_id definition_id (strftime_Ymd (ts_date t)) score (strip notes) in
          let st := assign (with_daily_scores df) st in
          (Return tt, save_df t_daily_scores st)
      end
  end end.

End Repository.

(** ** The aggregation engine *)

Module Groupby.

(** A group key: ([DefinitionID], [Year], period). *)
Definition key := (Z * Z * Z)%type.

Definition key_compare (a b : key) : comparison :=
  let '(a1, a2, a3) := a in
  let '(b1, b2, b3) := b in
  match a1 ?= b1 with
  | Eq => match a2 ?= b2 with Eq => a3 ?= b3 | c => c end
  | c => c
  end.

Definition key_eqb (a b : key) : bool :=
  match key_compare a b with Eq => true | _ => false end.

Definition key_lt (a b : key) : Prop := key_compare a b = Lt.

(** The key of a row of an averages table. *)
Definition key_of_average (a : average) : key :=
  (avg_DefinitionID a, Year a, Period a).

(** The distinct keys in ascending order ([sort=True]). *)
Fixpoint insert_key (k : key) (ks : list key) : list key :=
  match ks with
  | [] => [k]
  | k' :: ks' =>
      match key_compare k k' with
      | Lt => k :: ks
      | Eq => ks
      | Gt => k' :: insert_key k ks'
      end
  end.

Definition sorted_keys (ks : list key) : list key := fold_right insert_key [] ks.

(** The keys of the rows that have one: a row with a missing value in a
    key column is in no group ([dropna=True]). *)
Definition keys_of (cols : score -> option key) (df : list score) : list key :=
  flat_map (fun r => match cols r with Some k => [k] | None => [] end) df.

Definition in_group (cols : score -> option key) (k : key) (r : score) : bool :=
  match cols r with Some k' => key_eqb k k' | None => false end.

Definition sum (xs : list Z) : Z := fold_right Z.add 0 xs.

Definition count {A : Type} (xs : list A) : Z := Z.of_nat (List.length xs).

(** The mean of a group's scores, as the exact quotient of their sum by
    their number.  The [AverageScore] of the code is the [float64] nearest
    to it, the sum being exact while it is below 2^53. *)
Definition mean (xs : list Z) : Q := Qred (sum xs # Z.to_pos (count xs)).

(** [df.groupby(keys)['Score'].agg(['mean', 'count']).reset_index()]. *)
Definition groupby_mean_count (cols : score -> option key) (df : list score)
  : list (key * Q * Z) :=
  map (fun k => let g := filter (in_group cols k) df in (k, mean (map Score g), count g))
      (sorted_keys (keys_of cols df)).

(** The cells a grouping reads: the key columns and [Score]. *)
Definition cells (cols : score -> option key) (df : list score) : list (option key * Z) :=
  map (fun r => (cols r, Score r)) df.

(** [range(lo, hi)]. *)
Definition range (lo hi : Z) : list Z :=
  map (fun i => lo + Z.of_nat i) (seq 0 (Z.to_nat (hi - lo))).

(** The column [AverageID = range(1, len + 1)] and the schema's column
    order. *)
Definition with_AverageID (g : list (key * Q * Z)) : list average :=
  map (fun '(i, (k, m, c)) => mkAverage i (fst (fst k)) (snd (fst k)) (snd k) m c)
      (combine (range 1 (count g + 1)) g).

End Groupby.

Import Groupby.

Section Aggregation.

Variable R : Runtime.

Definition with_Date (c : date_cell) (r : score) : score :=
  mkScore (LogID r) (score_DefinitionID r) c (Score r) (Notes r)
    (score_Year r) (score_WeekOfYear r) (score_Month r) (score_Half r).

Definition with_Year_WeekOfYear (y w : option Z) (r : score) : score :=
  mkScore (LogID r) (score_DefinitionID r) (Date r) (Score r) (Notes r)
    y w (score_Month r) (score_Half r).

Definition with_Month (m : option Z) (r : score) : score :=
  mkScore (LogID r) (score_DefinitionID r) (Date r) (Score r) (Notes r)
    (score_Year r) (score_WeekOfYear r) m (score_Half r).

Definition with_Half (h : option Z) (r : score) : score :=
  mkScore (LogID r) (score_DefinitionID r) (Date r) (Score r) (Notes r)
    (score_Year r) (score_WeekOfYear r) (score_Month r) h.

(** The date a converted cell holds; [NaT] holds none. *)
Definition dt (c : date_cell) : option date :=
  match c with DateStamp t => Some (ts_date t) | _ => None end.

(** A new column name goes to the end of the column index. *)
Definition add_column (name : string) (cols : list string) : list string :=
  if existsb (String.eqb name) cols then cols else cols ++ [name].

(** [scores_df['Date'] = dates]. *)
Definition set_Date (dates : list (option timestamp)) (df : scores_frame) : scores_frame :=
  mkScores (map (fun '(r, o) => with_Date (datetime64 o) r) (combine (rows df) dates))
           (extra_columns df).

(** [scores_df['Year'] = scores_df['Date'].dt.isocalendar().year] and
    [scores_df['WeekOfYear'] = scores_df['Date'].dt.isocalendar().week]. *)
Definition set_Year_WeekOfYear (df : scores_frame) : scores_frame :=
  mkScores
    (map (fun r => with_Year_WeekOfYear (option_map iso_year (dt (Date r)))
                                        (option_map iso_week (dt (Date r))) r) (rows df))
    (add_column "WeekOfYear" (add_column "Year" (extra_columns df))).

(** [scores_df['Month'] = scores_df['Date'].dt.month]. *)
Definition set_Month (df : scores_frame) : scores_frame :=
  mkScores (map (fun r => with_Month (option_map month (dt (Date r))) r) (rows df))
           (add_column "Month" (extra_columns df)).

(** [scores_df['Half'] = (scores_df['Date'].dt.month - 1) // 6 + 1]. *)
Definition set_Half (df : scores_frame) : scores_frame :=
  mkScores
    (map (fun r => with_Half (option_map (fun m => (m - 1) / 6 + 1)
                                         (option_map month (dt (Date r)))) r) (rows df))
    (add_column "Half" (extra_columns df)).

(** The grouping columns [['DefinitionID', 'Year', period]]. *)
Definition by_columns (period : score -> option Z) (r : score) : option key :=
  match score_Year r, period r with
  | Some y, Some p => Some (score_DefinitionID r, y, p)
  | _, _ => None
  end.

Definition calculate_all_averages (st : tracker) : outcome unit * tracker :=
  let scores_df := daily_scores (dataframes st) in
  if empty (rows scores_df) then (Return tt, st) else
  match to_datetime_series R (map Date (rows scores_df)) with
  | None => (Raise ValueError, st)
  | Some dates =>
      let scores_df := set_Date dates scores_df in
      let scores_df := set_Year_WeekOfYear scores_df in
      let weekly_avg :=
        with_AverageID (groupby_mean_count (by_columns score_WeekOfYear) (rows scores_df)) in
      let scores_df := set_Month scores_df in
      let monthly_avg :=
        with_AverageID (groupby_mean_count (by_columns score_Month) (rows scores_df)) in
      let scores_df := set_Half scores_df in
      let semi_annual_avg :=
        with_AverageID (groupby_mean_count (by_columns score_Half) (rows scores_df)) in
      let st := assign (fun t => with_averages weekly_avg monthly_avg semi_annual_avg
                                   (with_daily_scores scores_df t)) st in
      (Return tt,
       save_df t_semi_annual_averages
         (save_df t_monthly_averages (save_df t_weekly_averages st)))
  end.

End Aggregation.

(** ** A runtime to evaluate with

    A small [Runtime] for the examples: numerals are ASCII decimal, dates
    are date objects or text of the form [YYYY-MM-DD], the empty text and
    [None] are [NaT], and a column is converted cell by cell.  On what the
    examples pass, Python and pandas give the same results; they accept
    more forms, which this runtime refuses. *)

Module Reference.

Definition isdigit (c : ascii) : bool := (48 <=? code c) && (code c <=? 57).

Fixpoint digits_value (acc : Z) (s : string) : option Z :=
  match s with
  | EmptyString => Some acc
  | String c s' =>
      if isdigit c then digits_value (acc * 10 + (code c - 48)) s' else None
  end.

Definition numeral (s : string) : option Z :=
  if nonempty s then digits_value 0 s else None.

Definition int_of_str (s : string) : option Z :=
  match strip s with
  | String "-" t => option_map Z.opp (numeral t)
  | String "+" t => numeral t
  | t => numeral t
  end.

Definition iso_date (s : string) : option date :=
  match s with
  | String y1 (String y2 (String y3 (String y4 (String "-"
      (String m1 (String m2 (String "-" (String d1 (String d2 EmptyString))))))))) =>
      let num cs := digits_value 0 (string_of_list_ascii cs) in
      match num [y1; y2; y3; y4], num [m1; m2], num [d1; d2] with
      | Some y, Some m, Some d =>
          if valid_dateb (mkDate y m d) then Some (mkDate y m d) else None
      | _, _, _ => None
      end
  | _ => None
  end.

Definition of_text (s : string) : option (option timestamp) :=
  if nonempty s then
    match iso_date s with
    | Some d => Some (Some (mkStamp d 0))
    | None => None
    end
  else Some None.

Definition to_datetime (v : pyval) : outcome scalar_datetime :=
  match v with
  | PyNone => Return NoneValue
  | PyInt _ | PyFloat _ => Raise TypeError
  | PyStr s =>
      match of_text s with
      | Some (Some t) => Return (Stamp t)
      | Some None => Return NaT
      | None => Raise ValueError
      end
  | PyDate d => if valid_dateb d then Return (Stamp (mkStamp d 0)) else Raise ValueError
  end.

Definition of_cell (c : date_cell) : option (option timestamp) :=
  match c with
  | DateStr s => of_text s
  | DateStamp t => Some (Some t)
  | DateNaT => Some None
  end.

Fixpoint to_datetime_series (col : list date_cell) : option (list (option timestamp)) :=
  match col with
  | [] => Some []
  | c :: col' =>
      match of_cell c, to_datetime_series col' with
      | Some o, Some out => Some (o :: out)
      | _, _ => None
      end
  end.

Lemma to_datetime_series_length (col : list date_cell) :
  forall out, to_datetime_series col = Some out -> List.length out = List.length col.
Proof.
  induction col as [| c col IH]; intros out; cbn.
  - intros [= <-]. reflexivity.
  - destruct (of_cell c); [| discriminate].
    destruct (to_datetime_series col) as [out' |]; [| discriminate].
    intros [= <-]. cbn. f_equal. now apply IH.
Qed.

Lemma to_datetime_series_datetime64 (out : list (option timestamp)) :
  to_datetime_series (map datetime64 out) = Some out.
Proof.
  induction out as [| o out IH]; cbn; [reflexivity |].
  rewrite IH. now destruct o.
Qed.

Definition runtime : Runtime :=
  Build_Runtime int_of_str to_datetime to_datetime_series
    to_datetime_series_length to_datetime_series_datetime64.

End Reference.

(** ** Vocabulary of the statements *)

(** The three averages tables of a set of tables. *)
Definition averages (t : tables) : list average * list average * list average :=
  (weekly_averages t, monthly_averages t, semi_annual_averages t).

(** A row of [daily_scores] once the aggregation has run over it, [o] being
    its converted date. *)
Definition aggregated (r : score) (o : option timestamp) : score :=
  let d := option_map ts_date o in
  mkScore (LogID r) (score_DefinitionID r) (datetime64 o) (Score r) (Notes r)
    (option_map iso_year d) (option_map iso_week d)
    (option_map month d) (option_map (fun m => (m - 1) / 6 + 1) (option_map month d)).

Definition aggregated_rows (df : list score) (dates : list (option timestamp)) : list score :=
  map (fun '(r, o) => aggregated r o) (combine df dates).

Definition aggregated_columns (cols : list string) : list string :=
  add_column "Half" (add_column "Month" (add_column "WeekOfYear" (add_column "Year" cols))).

(** The averages table of a period column over a frame. *)
Definition averages_by (period : score -> option Z) (df : list score) : list average :=
  with_AverageID (groupby_mean_count (by_columns period) df).

(** The rows of the frame [df] that are of the definition [definition_id]
    and dated in the ISO week of [d]. *)
Definition same_iso_week (definition_id : Z) (d : date) (r : score) : bool :=
  (score_DefinitionID r =? definition_id) &&
  match dt (Date r) with
  | Some d' => (iso_year d' =? iso_year d) && (iso_week d' =? iso_week d)
  | None => false
  end.

(** The tracker a completed aggregation leaves, [dates] being the converted
    [Date] column: [daily_scores] is rewritten in memory only, the three
    averages tables in memory and on disk. *)
Definition aggregation_result (st : tracker) (dates : list (option timestamp)) : tracker :=
  let scores_df := daily_scores (dataframes st) in
  let df := aggregated_rows (rows scores_df) dates in
  let w := averages_by score_WeekOfYear df in
  let m := averages_by score_Month df in
  let h := averages_by score_Half df in
  mkTracker
    (with_averages w m h
       (with_daily_scores (mkScores df (aggregated_columns (extra_columns scores_df)))
          (dataframes st)))
    (with_averages w m h (files st)).

(** ** Sample trackers *)

Definition no_tables : tables := mkTables [] [] (mkScores [] []) [] [] [].

(** A fresh tracker: six empty frames, six header-only files. *)
Definition fresh : tracker := mkTracker no_tables no_tables.

(** One subject ("Rex") with one behaviour definition (id 1). *)
Definition rex : tracker :=
  snd (add_behavior_definition Reference.runtime (PyInt 1) "Barking" ""
         (snd (add_subject "2024-01-01 10:00:00" (PyStr " Rex ") fresh))).

(** ... with a score of 5 logged for Sunday 2023-01-01. *)
Definition rex_new_year : tracker :=
  snd (log_score Reference.runtime (PyInt 1) (PyStr "2023-01-01") (PyInt 5) "" rex).

(** Rex with three scores of 2024, logged out of order: 10 on 10 February,
    then 4 and 6 on 1 and 3 January. *)
Definition rex_2024 : tracker :=
  let log d s st := snd (log_score Reference.runtime (PyInt 1) (PyStr d) (PyInt s) "" st) in
  log "2024-01-03"%string 6 (log "2024-01-01"%string 4 (log "2024-02-10"%string 10 rex)).

(** No scores, and an averages row left over from an earlier session. *)
Definition stale : tracker :=
  let t := mkTables [] [] (mkScores [] []) [mkAverage 1 1 2022 52 5 1] [] [] in
  mkTracker t t.

(** A row of [daily_scores] with a date: its [Date] cell is a timestamp. *)
Definition dated (r : score) : bool :=
  match dt (Date r) with Some _ => true | None => false end.

(** Weekly rows of one behaviour for weeks 2 and 10 of 2024. *)
Definition weeks_2_and_10 : tables :=
  mkTables [] [] (mkScores [] [])
    [mkAverage 1 1 2024 2 4 1; mkAverage 2 1 2024 10 6 1] [] [].

(** ** Sessions and what they keep *)

(** One call of an operation of the tracker, whatever its arguments and
    however it ends. *)
Inductive step (R : Runtime) : tracker -> tracker -> Prop :=
| step_add_subject now label st :
    step R st (snd (add_subject now label st))
| step_add_behavior_definition subject_id behavior_name description st :
    step R st (snd (add_behavior_definition R subject_id behavior_name description st))
| step_log_score definition_id date score notes st :
    step R st (snd (log_score R definition_id date score notes st))
| step_calculate_all_averages st :
    step R st (snd (calculate_all_averages R st)).

(** The trackers a session reaches from a fresh one. *)
Inductive reachable (R : Runtime) : tracker -> Prop :=
| reachable_fresh : reachable R fresh
| reachable_step st st' : reachable R st -> step R st st' -> reachable R st'.

(** What a call does to the tracker: nothing, or one of four changes. *)
Inductive effect (R : Runtime) (st : tracker) : tracker -> Prop :=
| effect_none : effect R st st
| effect_subject now label :
    strip label <> EmptyString ->
    (forall s, In s (subjects (dataframes st)) ->
               lower (SubjectLabel s) <> lower (strip label)) ->
    let df := subjects (dataframes st)
              ++ [mkSubject (get_next_id (subjects (dataframes st)) SubjectID)
                    (strip label) now] in
    effect R st (mkTracker (with_subjects df (dataframes st)) (with_subjects df (files st)))
| effect_definition subject_id behavior_name description :
    strip behavior_name <> EmptyString ->
    (exists s, In s (subjects (dataframes st)) /\ SubjectID s = subject_id) ->
    let df := definitions (dataframes st)
              ++ [mkDefinition (get_next_id (definitions (dataframes st)) DefinitionID)
                    subject_id (strip behavior_name) (strip description)] in
    effect R st (mkTracker (with_definitions df (dataframes st))
                           (with_definitions df (files st)))
| effect_score definition_id t score notes :
    1 <= score <= 10 ->
    (exists d, In d (definitions (dataframes st)) /\ DefinitionID d = definition_id) ->
    let df := concat_score (daily_scores (dataframes st))
                (get_next_id (rows (daily_scores (dataframes st))) LogID)
                definition_id (strftime_Ymd (ts_date t)) score (strip notes) in
    effect R st (mkTracker (with_daily_scores df (dataframes st))
                           (with_daily_scores df (files st)))
| effect_aggregation dates :
    rows (daily_scores (dataframes st)) <> [] ->
    to_datetime_series R (map Date (rows (daily_scores (dataframes st)))) = Some dates ->
    effect R st (aggregation_result st dates).

(** Every ID column is free of duplicates. *)
Definition ids_unique (t : tables) : Prop :=
  NoDup (map SubjectID (subjects t)) /\
  NoDup (map DefinitionID (definitions t)) /\
  NoDup (map LogID (rows (daily_scores t))).

(** The largest value of an [int64] column, which is what an ID column
    is. *)
Definition int64_max : Z := 2 ^ 63 - 1.

(** Every ID column has room for its next ID: [pd.concat] keeps the column
    [int64] as long as the new ID, the largest plus 1, is one.  Past that
    the column of the code turns into [float64] and its IDs are rounded,
    which the tables here, whose IDs are integers, do not follow. *)
Definition ids_below_int64_max (t : tables) : Prop :=
  (forall r, In r (subjects t) -> SubjectID r < int64_max) /\
  (forall r, In r (definitions t) -> DefinitionID r < int64_max) /\
  (forall r, In r (rows (daily_scores t)) -> LogID r < int64_max).

(** [float64] holds every integer up to this one exactly. *)
Definition float64_exact_max : Z := 2 ^ 53.

(** Every ID column counts 1, 2, 3, ... down the table. *)
Definition ids_sequential (t : tables) : Prop :=
  map SubjectID (subjects t) = range 1 (count (subjects t) + 1) /\
  map DefinitionID (definitions t) = range 1 (count (definitions t) + 1) /\
  map LogID (rows (daily_scores t)) = range 1 (count (rows (daily_scores t)) + 1).

(** Every definition names a subject of the table, every score a
    definition. *)
Definition keys_resolve (t : tables) : Prop :=
  (forall d, In d (definitions t) ->
             exists s, In s (subjects t) /\ SubjectID s = def_SubjectID d) /\
  (forall r, In r (rows (daily_scores t)) ->
             exists d, In d (definitions t) /\ DefinitionID d = score_DefinitionID r).

(** No two subjects share a label up to letter case, and every label is
    non-empty and trimmed. *)
Definition labels_distinct (t : tables) : Prop :=
  NoDup (map (fun s => lower (SubjectLabel s)) (subjects t)) /\
  (forall s, In s (subjects t) ->
             SubjectLabel s <> EmptyString /\ strip (SubjectLabel s) = SubjectLabel s).

Definition scores_in_range (t : tables) : Prop :=
  forall r, In r (rows (daily_scores t)) -> 1 <= Score r <= 10.

(** What [log_score] has recorded in a row: the cells the aggregation
    leaves alone. *)
Definition logged (r : score) : Z * Z * Z * string :=
  (LogID r, score_DefinitionID r, Score r, Notes r).

(** The files hold what memory holds; of [daily_scores], whose dates and
    helper columns the aggregation rewrites in memory only, they hold the
    logged cells. *)
Definition files_current (st : tracker) : Prop :=
  subjects (files st) = subjects (dataframes st) /\
  definitions (files st) = definitions (dataframes st) /\
  averages (files st) = averages (dataframes st) /\
  map logged (rows (daily_scores (files st)))
  = map logged (rows (daily_scores (dataframes st))).

(** ** Start-up: the data directory *)

(** The columns of each table, [DATABASE_SCHEMA[name]['cols']]. *)
Definition schema_cols (n : table_name) : list string :=
  match n with
  | t_subjects => ["SubjectID"; "SubjectLabel"; "DateCreated"]
  | t_definitions => ["DefinitionID"; "SubjectID"; "BehaviorName"; "Description"]
  | t_daily_scores => ["LogID"; "DefinitionID"; "Date"; "Score"; "Notes"]
  | t_weekly_averages =>
      ["AverageID"; "DefinitionID"; "Year"; "WeekOfYear"; "AverageScore"; "DataPointsCount"]
  | t_monthly_averages =>
      ["AverageID"; "DefinitionID"; "Year"; "Month"; "AverageScore"; "DataPointsCount"]
  | t_semi_annual_averages =>
      ["AverageID"; "DefinitionID"; "Year"; "Half"; "AverageScore"; "DataPointsCount"]
  end%string.

(** The tables in the order of [DATABASE_SCHEMA.items()]. *)
Definition DATABASE_SCHEMA : list table_name :=
  [t_subjects; t_definitions; t_daily_scores;
   t_weekly_averages; t_monthly_averages; t_semi_annual_averages].

Definition table_eqb (n m : table_name) : bool :=
  match n, m with
  | t_subjects, t_subjects | t_definitions, t_definitions
  | t_daily_scores, t_daily_scores | t_weekly_averages, t_weekly_averages
  | t_monthly_averages, t_monthly_averages
  | t_semi_annual_averages, t_semi_annual_averages => true
  | _, _ => false
  end.

(** A CSV file: its header line and its records. *)
Record csv_file := mkCsv { header : list string; records : list (list string) }.

(** The data directory [DATA_PATH]: [None] while it does not exist, else,
    for each table, its file if there is one. *)
Definition disk := option (table_name -> option csv_file).

Definition file_of (d : disk) (n : table_name) : option csv_file :=
  match d with Some files => files n | None => None end.

(** [os.path.exists(file_path)]. *)
Definition file_exists (d : disk) (n : table_name) : bool :=
  match file_of d n with Some _ => true | None => false end.

(** [os.makedirs(DATA_PATH)]. *)
Definition makedirs (d : disk) : disk :=
  match d with Some _ => d | None => Some (fun _ => None) end.

(** [df.to_csv(file_path, index=False)] into the directory. *)
Definition to_csv (n : table_name) (c : csv_file) (d : disk) : disk :=
  match d with
  | Some files => Some (fun m => if table_eqb m n then Some c else files m)
  | None => None
  end.

(** [os.path.exists(DATA_PATH)]. *)
Definition dir_exists (d : disk) : bool :=
  match d with Some _ => true | None => false end.

(** One round of the loop of [initialize_database]: an empty frame of the
    table's columns is written where there is no file. *)
Definition create_if_missing (d : disk) (table_name : table_name) : disk :=
  if negb (file_exists d table_name)
  then to_csv table_name (mkCsv (schema_cols table_name) []) d
  else d.

Definition initialize_database (d : disk) : disk :=
  let d := if negb (dir_exists d) then makedirs d else d in
  fold_left create_if_missing DATABASE_SCHEMA d.

(** ** What the pages read (app.py) *)

(** [pd.merge(defs_df, subjects_df, on='SubjectID')]: the inner join, in
    the order of the definitions. *)
Definition merge_on_SubjectID (defs_df : list definition) (subjects_df : list subject)
  : list (definition * subject) :=
  flat_map (fun d => map (pair d)
                         (filter (fun s => SubjectID s =? def_SubjectID d) subjects_df))
           defs_df.

(** [SubjectLabel + " - " + BehaviorName]. *)
Definition display_label (m : definition * subject) : string :=
  (SubjectLabel (snd m) ++ " - " ++ BehaviorName (fst m))%string.

(** A Python [dict] from IDs to text: the keys in the order they were
    first set, each with the value set last. *)
Definition dict := list (Z * string).

Fixpoint dict_set (k : Z) (v : string) (d : dict) : dict :=
  match d with
  | [] => [(k, v)]
  | (k', v') :: d' => if k' =? k then (k', v) :: d' else (k', v') :: dict_set k v d'
  end.

Fixpoint dict_get (k : Z) (d : dict) : option string :=
  match d with
  | [] => None
  | (k', v) :: d' => if k' =? k then Some v else dict_get k d'
  end.

(** [pd.Series(values, index=keys).to_dict()]. *)
Definition to_dict (items : list (Z * string)) : dict :=
  fold_left (fun d kv => dict_set (fst kv) (snd kv) d) items [].

(** The behaviours offered for scoring and plotting. *)
Definition definition_options (t : tables) : dict :=
  let merged_defs := merge_on_SubjectID (definitions t) (subjects t) in
  to_dict (map (fun m => (DefinitionID (fst m), display_label m)) merged_defs).

(** [str(n)] of an integer. *)
Fixpoint digits_of (fuel : nat) (n : Z) : string :=
  match fuel with
  | O => EmptyString
  | S fuel' =>
      if n <? 10 then String (digit n) EmptyString
      else (digits_of fuel' (n / 10) ++ String (digit n) EmptyString)%string
  end.

Definition str_int (n : Z) : string :=
  if n <? 0 then String "-" (digits_of (S (Z.to_nat (- n))) (- n))
  else digits_of (S (Z.to_nat n)) n.

(** The weekly chart's ['Time Period']:
    [Year.astype(str) + "-W" + WeekOfYear.astype(str)]. *)
Definition time_period (a : average) : string :=
  (str_int (Year a) ++ "-W" ++ str_int (WeekOfYear a))%string.

(** [sort_values(by='Time Period')]: ascending in the order of [str]. *)
Fixpoint insert_by_time_period (a : average) (l : list average) : list average :=
  match l with
  | [] => [a]
  | b :: l' =>
      if String.leb (time_period a) (time_period b) then a :: l
      else b :: insert_by_time_period a l'
  end.

Definition sort_values (l : list average) : list average :=
  fold_right insert_by_time_period [] l.

(** The rows the weekly chart draws, in the order it draws them. *)
Definition plot_data (t : tables) (behavior_to_plot : Z) : list average :=
  sort_values (filter (fun a => avg_DefinitionID a =? behavior_to_plot)
                      (weekly_averages t)).

Example isocalendar_2023_01_01 : isocalendar (mkDate 2023 1 1) = (2022, 52, 7).
Proof. reflexivity. Qed.

Example isocalendar_2024_12_30 : isocalendar (mkDate 2024 12 30) = (2025, 1, 1).
Proof. reflexivity. Qed.

Example isocalendar_2021_01_03 : isocalendar (mkDate 2021 1 3) = (2020, 53, 7).
Proof. reflexivity. Qed.

Section CalendarFacts.

(** Linear arithmetic with [/] and [mod] by literals. *)
Ltac div_lia := Z.to_euclidean_division_equations; lia.

Lemma year_length (y : Z) :
  days_before_year (y + 1) = days_before_year y + (if is_leap y then 366 else 365).
Proof.
  unfold days_before_year, is_leap.
  replace (y + 1 - 1) with y by lia.
  cbv zeta.
  destruct (Z.eqb_spec (y mod 4) 0); destruct (Z.eqb_spec (y mod 100) 0);
    destruct (Z.eqb_spec (y mod 400) 0); cbn [andb orb negb]; div_lia.
Qed.

Lemma new_year_ordinal (y : Z) : ymd2ord (mkDate y 1 1) = days_before_year y + 1.
Proof. unfold ymd2ord; cbv -[days_before_year Z.add]. lia. Qed.

Lemma week1_monday_is_week1_start (y : Z) :
  iso_week1_monday y = iso8601_week1_start y.
Proof.
  unfold iso_week1_monday, iso8601_week1_start, THURSDAY.
  rewrite new_year_ordinal.
  unfold ymd2ord; cbn [year month day].
  change (days_before_month y 1) with 0.
  set (b := days_before_year y).
  destruct (Z.ltb_spec 3 ((b + 1 + 6) mod 7)); div_lia.
Qed.

(** Week 01 starts within three days of 1 January, on a Monday. *)
Lemma week1_monday_near_new_year (y : Z) :
  days_before_year y - 2 <= iso_week1_monday y <= days_before_year y + 4 /\
  (iso_week1_monday y + 6) mod 7 = 0.
Proof.
  unfold iso_week1_monday, THURSDAY. rewrite new_year_ordinal.
  set (b := days_before_year y).
  destruct (Z.ltb_spec 3 ((b + 1 + 6) mod 7)); div_lia.
Qed.

Lemma day_of_year_range (d : date) :
  valid_date d ->
  1 <= days_before_month (year d) (month d) + day d
    <= (if is_leap (year d) then 366 else 365).
Proof.
  unfold valid_date, valid_dateb, days_before_month, days_in_month.
  destruct d as [y m dd]; cbn [year month day].
  rewrite !andb_true_iff, !Z.leb_le. intros [[[Hm1 Hm12] Hd1] Hd].
  assert (Hcases : m = 1 \/ m = 2 \/ m = 3 \/ m = 4 \/ m = 5 \/ m = 6 \/ m = 7 \/
                   m = 8 \/ m = 9 \/ m = 10 \/ m = 11 \/ m = 12) by lia.
  destruct (is_leap y);
    repeat (destruct Hcases as [-> | Hcases]); try subst m;
    cbv -[Z.le Z.lt Z.add] in Hd |- *; lia.
Qed.

Lemma ordinal_in_year (d : date) :
  valid_date d ->
  days_before_year (year d) + 1 <= ymd2ord d <= days_before_year (year d + 1).
Proof.
  intros Hv. pose proof (day_of_year_range d Hv) as H.
  rewrite year_length. unfold ymd2ord. lia.
Qed.

(** [isocalendar] returns the ISO 8601 week date of every calendar date. *)
Lemma isocalendar_iso8601 (d : date) :
  valid_date d ->
  iso8601_week_date d (iso_year d) (iso_week d) /\ 1 <= iso_week d <= 53.
Proof.
  intros Hv. pose proof (ordinal_in_year d Hv) as Hord.
  unfold iso8601_week_date, iso_year, iso_week, isocalendar.
  rewrite <- !week1_monday_is_week1_start.
  set (y := year d) in *. set (o := ymd2ord d) in *.
  pose proof (week1_monday_near_new_year (y - 1)) as Hp.
  pose proof (week1_monday_near_new_year y) as H0.
  pose proof (week1_monday_near_new_year (y + 1)) as H1.
  pose proof (week1_monday_near_new_year (y + 1 + 1)) as H2.
  pose proof (year_length (y - 1)) as Lp. replace (y - 1 + 1) with y in * by lia.
  pose proof (year_length y) as L0.
  pose proof (year_length (y + 1)) as L1.
  set (wp := iso_week1_monday (y - 1)) in *.
  set (w0 := iso_week1_monday y) in *.
  set (w1 := iso_week1_monday (y + 1)) in *.
  set (w2 := iso_week1_monday (y + 1 + 1)) in *.
  set (bp := days_before_year (y - 1)) in *.
  set (b0 := days_before_year y) in *.
  set (b1 := days_before_year (y + 1)) in *.
  set (b2 := days_before_year (y + 1 + 1)) in *.
  destruct (is_leap (y - 1)), (is_leap y), (is_leap (y + 1));
  (destruct (Z.ltb_spec ((o - w0) / 7) 0);
   [ cbn [fst snd]; replace (y - 1 + 1) with y by lia; fold w0
   | destruct (Z.leb_spec 52 ((o - w0) / 7)); destruct (Z.leb_spec w1 o);
     cbn [andb fst snd]; fold w1; fold w2 ]);
  div_lia.
Qed.

End CalendarFacts.

(** ** Facts about the grouping *)

Section GroupbyFacts.

Lemma key_compare_eq (a b : key) : key_compare a b = Eq <-> a = b.
Proof.
  destruct a as [[a1 a2] a3], b as [[b1 b2] b3]; cbn.
  destruct (Z.compare_spec a1 b1); [| split; [discriminate | intros [=]; lia] ..].
  destruct (Z.compare_spec a2 b2); [| split; [discriminate | intros [=]; lia] ..].
  rewrite Z.compare_eq_iff. subst. split; [now intros -> | now intros [=]].
Qed.

Lemma key_eqb_eq (a b : key) : key_eqb a b = true <-> a = b.
Proof.
  unfold key_eqb. rewrite <- key_compare_eq.
  destruct (key_compare a b); split; congruence.
Qed.

Lemma in_insert_key (x k : key) (ks : list key) :
  In x (insert_key k ks) <-> x = k \/ In x ks.
Proof.
  induction ks as [| k' ks IH]; cbn; [intuition congruence |].
  destruct (key_compare k k') eqn:E; cbn.
  - apply key_compare_eq in E. subst. intuition congruence.
  - intuition congruence.
  - rewrite IH. intuition congruence.
Qed.

Lemma in_sorted_keys (x : key) (ks : list key) : In x (sorted_keys ks) <-> In x ks.
Proof.
  induction ks as [| k ks IH]; cbn; [reflexivity |].
  rewrite in_insert_key, IH. intuition congruence.
Qed.

Lemma in_keys_of (cols : score -> option key) (df : list score) (k : key) :
  In k (keys_of cols df) <-> exists r, In r df /\ cols r = Some k.
Proof.
  unfold keys_of. rewrite in_flat_map. split.
  - intros (r & Hr & Hk). exists r. split; [assumption |].
    destruct (cols r); cbn in Hk; intuition congruence.
  - intros (r & Hr & Hk). exists r. rewrite Hk. cbn. auto.
Qed.

Lemma keys_of_cells (cols cols' : score -> option key) (df df' : list score) :
  cells cols df = cells cols' df' -> keys_of cols df = keys_of cols' df'.
Proof.
  unfold keys_of.
  revert df'. induction df as [| r df IH]; intros [| r' df']; cbn; try discriminate;
    [reflexivity |].
  intros [= Hk _ Ht]. now rewrite Hk, (IH _ Ht).
Qed.

Lemma group_of_cells (cols cols' : score -> option key) (k : key) (df df' : list score) :
  cells cols df = cells cols' df' ->
  map Score (filter (in_group cols k) df) = map Score (filter (in_group cols' k) df').
Proof.
  revert df'. induction df as [| r df IH]; intros [| r' df']; cbn; try discriminate;
    [reflexivity |].
  intros [= Hk Hs Ht].
  assert (Hg : in_group cols k r = in_group cols' k r')
    by (unfold in_group; now rewrite Hk).
  rewrite Hg. destruct (in_group cols' k r'); cbn; now rewrite ?Hs, (IH _ Ht).
Qed.

Lemma count_map {A B : Type} (f : A -> B) (l : list A) : count (map f l) = count l.
Proof. unfold count. now rewrite length_map. Qed.

(** A grouping depends on the frame through the cells it reads only. *)
Lemma groupby_reads_cells (cols cols' : score -> option key) (df df' : list score) :
  cells cols df = cells cols' df' ->
  groupby_mean_count cols df = groupby_mean_count cols' df'.
Proof.
  intros H. unfold groupby_mean_count.
  rewrite (keys_of_cells _ _ _ _ H).
  apply map_ext. intros k. cbv zeta.
  rewrite <- (count_map Score (filter (in_group cols k) df)).
  rewrite <- (count_map Score (filter (in_group cols' k) df')).
  now rewrite (group_of_cells _ _ k _ _ H).
Qed.

Lemma range_length (lo hi : Z) : List.length (range lo hi) = Z.to_nat (hi - lo).
Proof. unfold range. now rewrite length_map, length_seq. Qed.

Lemma with_AverageID_length (g : list (key * Q * Z)) :
  List.length (with_AverageID g) = List.length g.
Proof.
  unfold with_AverageID. rewrite length_map, length_combine, range_length.
  unfold count. lia.
Qed.

Lemma combine_map_fst {A B C : Type} (f : A * B -> C) (g : C -> A) (l : list A) (l' : list B) :
  (forall a b, g (f (a, b)) = a) ->
  List.length l = List.length l' ->
  map g (map f (combine l l')) = l.
Proof.
  intros Hg. revert l'. induction l as [| a l IH]; intros [| b l']; cbn; try discriminate;
    [reflexivity |].
  intros [= Hl]. now rewrite Hg, IH.
Qed.

(** The [AverageID] column is [range(1, len + 1)]. *)
Lemma with_AverageID_ids (g : list (key * Q * Z)) :
  map AverageID (with_AverageID g) = range 1 (count (with_AverageID g) + 1).
Proof.
  unfold count at 1. rewrite with_AverageID_length. fold (count g).
  unfold with_AverageID.
  apply combine_map_fst.
  - now intros i [[k m] c].
  - rewrite range_length. unfold count. rewrite Z.add_simpl_r. apply Nat2Z.id.
Qed.

(** Every group is a row of the table, with its key and aggregates. *)
Lemma with_AverageID_complete (g : list (key * Q * Z)) (k : key) (m : Q) (c : Z) :
  In (k, m, c) g ->
  exists a, In a (with_AverageID g) /\
    avg_DefinitionID a = fst (fst k) /\ Year a = snd (fst k) /\ Period a = snd k /\
    AverageScore a = m /\ DataPointsCount a = c.
Proof.
  intros Hin. apply In_nth_error in Hin as [n Hn].
  assert (Hlt : (n < List.length g)%nat) by (apply nth_error_Some; congruence).
  destruct (nth_error (range 1 (count g + 1)) n) as [i |] eqn:Hi.
  2:{ apply nth_error_None in Hi. rewrite range_length in Hi. unfold count in Hi.
      rewrite Z.add_simpl_r, Nat2Z.id in Hi. lia. }
  exists (mkAverage i (fst (fst k)) (snd (fst k)) (snd k) m c). split; [| now cbn].
  unfold with_AverageID.
  apply in_map_iff. exists (i, (k, m, c)). split; [reflexivity |].
  apply (nth_error_In _ n).
  revert Hi Hn. generalize (range 1 (count g + 1)). revert g Hlt.
  induction n as [| n IH]; intros [| x g] Hlt [| j l]; cbn in *; try discriminate; try lia.
  - now intros [= ->] [= ->].
  - intros. apply IH; [lia | assumption ..].
Qed.

(** The keys come out in strictly ascending order, each once. *)

Lemma key_lt_iff (a b : key) :
  key_lt a b <->
  fst (fst a) < fst (fst b) \/
  (fst (fst a) = fst (fst b) /\
   (snd (fst a) < snd (fst b) \/ (snd (fst a) = snd (fst b) /\ snd a < snd b))).
Proof.
  destruct a as [[a1 a2] a3], b as [[b1 b2] b3]; unfold key_lt; cbn.
  destruct (Z.compare_spec a1 b1); [| split; [lia | reflexivity] | split; [discriminate | lia]].
  destruct (Z.compare_spec a2 b2); [| split; [lia | reflexivity] | split; [discriminate | lia]].
  rewrite Z.compare_lt_iff. lia.
Qed.

Lemma key_gt_lt (a b : key) : key_compare a b = Gt -> key_lt b a.
Proof.
  intros H. apply key_lt_iff.
  destruct a as [[a1 a2] a3], b as [[b1 b2] b3]; cbn in *.
  destruct (Z.compare_spec a1 b1); [| discriminate | lia].
  destruct (Z.compare_spec a2 b2); [| discriminate | lia].
  apply Z.compare_gt_iff in H. lia.
Qed.

Lemma key_lt_trans (a b c : key) : key_lt a b -> key_lt b c -> key_lt a c.
Proof. rewrite !key_lt_iff. lia. Qed.

Lemma key_lt_irrefl (a : key) : ~ key_lt a a.
Proof. rewrite key_lt_iff. lia. Qed.

Lemma insert_key_HdRel (a k : key) (ks : list key) :
  HdRel key_lt a ks -> key_lt a k -> HdRel key_lt a (insert_key k ks).
Proof.
  destruct ks as [| k' ks]; cbn; [now constructor |].
  intros Hhd Hak. apply HdRel_inv in Hhd.
  destruct (key_compare k k'); now constructor.
Qed.

Lemma insert_key_sorted (k : key) (ks : list key) :
  Sorted key_lt ks -> Sorted key_lt (insert_key k ks).
Proof.
  induction ks as [| k' ks IH]; cbn; [repeat constructor |].
  intros Hs. apply Sorted_inv in Hs as [Hs Hhd].
  destruct (key_compare k k') eqn:E.
  - now constructor.
  - constructor; [now constructor | now constructor].
  - constructor; [now apply IH |].
    apply insert_key_HdRel; [assumption | now apply key_gt_lt].
Qed.

Lemma sorted_keys_sorted (ks : list key) : Sorted key_lt (sorted_keys ks).
Proof.
  induction ks as [| k ks IH]; cbn; [constructor | now apply insert_key_sorted].
Qed.

Lemma sorted_NoDup (ks : list key) : Sorted key_lt ks -> NoDup ks.
Proof.
  intros Hs. apply Sorted_StronglySorted in Hs; [| exact key_lt_trans].
  induction Hs as [| k ks _ IH Hall]; constructor; [| assumption].
  intros Hin. rewrite Forall_forall in Hall.
  exact (key_lt_irrefl k (Hall k Hin)).
Qed.

Lemma with_AverageID_keys (g : list (key * Q * Z)) :
  map key_of_average (with_AverageID g) = map (fun x => fst (fst x)) g.
Proof.
  unfold with_AverageID.
  assert (H : forall (ids : list Z),
             List.length ids = List.length g ->
             map key_of_average
               (map (fun '(i, (k, m, c)) =>
                       mkAverage i (fst (fst k)) (snd (fst k)) (snd k) m c)
                    (combine ids g))
             = map (fun x => fst (fst x)) g).
  { induction g as [| [[k m] c] g IH]; intros [| i ids]; cbn; try discriminate;
      [reflexivity |].
    intros [= Hl]. rewrite (IH _ Hl). unfold key_of_average at 1; cbn.
    now destruct k as [[k1 k2] k3]. }
  apply H. rewrite range_length. unfold count. rewrite Z.add_simpl_r. apply Nat2Z.id.
Qed.

(** An averages table has its rows in ascending order of
    ([DefinitionID], [Year], period), one row per key. *)
Lemma groupby_table_sorted (cols : score -> option key) (df : list score) :
  Sorted key_lt (map key_of_average (with_AverageID (groupby_mean_count cols df))) /\
  NoDup (map key_of_average (with_AverageID (groupby_mean_count cols df))).
Proof.
  rewrite with_AverageID_keys. unfold groupby_mean_count. rewrite map_map. cbn.
  rewrite map_id.
  split; [apply sorted_keys_sorted | apply sorted_NoDup, sorted_keys_sorted].
Qed.

End GroupbyFacts.

(** ** Facts about the aggregation run *)

Section AggregationFacts.

Variable R : Runtime.

Lemma dt_datetime64 (o : option timestamp) : dt (datetime64 o) = option_map ts_date o.
Proof. now destruct o. Qed.

Lemma aggregated_frame (dates : list (option timestamp)) (df : scores_frame) :
  set_Half (set_Month (set_Year_WeekOfYear (set_Date dates df)))
  = mkScores (aggregated_rows (rows df) dates) (aggregated_columns (extra_columns df)).
Proof.
  unfold set_Half, set_Month, set_Year_WeekOfYear, set_Date, aggregated_rows,
    aggregated_columns; cbn [rows extra_columns].
  f_equal. rewrite !map_map. apply map_ext. intros [r o].
  unfold aggregated, with_Half, with_Month, with_Year_WeekOfYear, with_Date; cbn.
  now rewrite dt_datetime64.
Qed.

(** Each grouping sees, in the frame as it is when it runs, the cells it
    would see in the finished frame. *)
Lemma weekly_cells (dates : list (option timestamp)) (df : scores_frame) :
  cells (by_columns score_WeekOfYear) (rows (set_Year_WeekOfYear (set_Date dates df)))
  = cells (by_columns score_WeekOfYear) (aggregated_rows (rows df) dates).
Proof.
  unfold cells, set_Year_WeekOfYear, set_Date, aggregated_rows; cbn [rows].
  rewrite !map_map. apply map_ext. intros [r o].
  unfold by_columns; cbn. now rewrite dt_datetime64.
Qed.

Lemma monthly_cells (dates : list (option timestamp)) (df : scores_frame) :
  cells (by_columns score_Month)
    (rows (set_Month (set_Year_WeekOfYear (set_Date dates df))))
  = cells (by_columns score_Month) (aggregated_rows (rows df) dates).
Proof.
  unfold cells, set_Month, set_Year_WeekOfYear, set_Date, aggregated_rows; cbn [rows].
  rewrite !map_map. apply map_ext. intros [r o].
  unfold by_columns; cbn. now rewrite dt_datetime64.
Qed.

Lemma calculate_all_averages_returns (st : tracker) (dates : list (option timestamp)) :
  rows (daily_scores (dataframes st)) <> [] ->
  to_datetime_series R (map Date (rows (daily_scores (dataframes st)))) = Some dates ->
  calculate_all_averages R st = (Return tt, aggregation_result st dates).
Proof.
  intros Hne Hdates. unfold calculate_all_averages.
  assert (Hempty : empty (rows (daily_scores (dataframes st))) = false)
    by (destruct (rows (daily_scores (dataframes st))); [contradiction | reflexivity]).
  rewrite Hempty, Hdates.
  unfold aggregation_result, averages_by.
  rewrite (groupby_reads_cells _ _ _ _ (weekly_cells dates _)).
  rewrite (groupby_reads_cells _ _ _ _ (monthly_cells dates _)).
  rewrite aggregated_frame. cbn [rows].
  reflexivity.
Qed.

(** The three ways a run can go. *)
Lemma calculate_all_averages_cases (st : tracker) :
  (rows (daily_scores (dataframes st)) = [] /\
   calculate_all_averages R st = (Return tt, st)) \/
  (rows (daily_scores (dataframes st)) <> [] /\
   to_datetime_series R (map Date (rows (daily_scores (dataframes st)))) = None /\
   calculate_all_averages R st = (Raise ValueError, st)) \/
  (exists dates,
     rows (daily_scores (dataframes st)) <> [] /\
     to_datetime_series R (map Date (rows (daily_scores (dataframes st)))) = Some dates /\
     calculate_all_averages R st = (Return tt, aggregation_result st dates)).
Proof.
  destruct (rows (daily_scores (dataframes st))) as [| r0 df0] eqn:Hrows.
  - left. split; [reflexivity |]. unfold calculate_all_averages. now rewrite Hrows.
  - right.
    destruct (to_datetime_series R (map Date (r0 :: df0))) as [dates |] eqn:Hd.
    + right. exists dates. split; [discriminate |]. split; [reflexivity |].
      apply calculate_all_averages_returns; rewrite Hrows; [discriminate | assumption].
    + left. split; [discriminate |]. split; [reflexivity |].
      unfold calculate_all_averages. rewrite Hrows. cbn [empty]. now rewrite Hd.
Qed.

End AggregationFacts.

(** ** The aggregation run: what it changes and what it leaves *)

Section AggregationRun.

Variable R : Runtime.

Lemma aggregated_rows_length (df : list score) (dates : list (option timestamp)) :
  List.length dates = List.length df ->
  List.length (aggregated_rows df dates) = List.length df.
Proof.
  intros H. unfold aggregated_rows. rewrite length_map, length_combine. lia.
Qed.

Lemma aggregated_rows_Date (df : list score) (dates : list (option timestamp)) :
  List.length dates = List.length df ->
  map Date (aggregated_rows df dates) = map datetime64 dates.
Proof.
  unfold aggregated_rows. revert dates.
  induction df as [| r df IH]; intros [| o dates]; cbn; try discriminate; [reflexivity |].
  intros [= H]. now rewrite IH.
Qed.

Lemma aggregated_rows_again (df : list score) (dates : list (option timestamp)) :
  aggregated_rows (aggregated_rows df dates) dates = aggregated_rows df dates.
Proof.
  unfold aggregated_rows. revert dates.
  induction df as [| r df IH]; intros [| o dates]; cbn; try reflexivity.
  now rewrite IH.
Qed.

Lemma existsb_add_column (n m : string) (cols : list string) :
  existsb (String.eqb n) (add_column m cols)
  = (String.eqb n m || existsb (String.eqb n) cols)%bool.
Proof.
  unfold add_column. destruct (existsb (String.eqb m) cols) eqn:E.
  - destruct (String.eqb_spec n m) as [-> |]; [now rewrite E | reflexivity].
  - rewrite existsb_app. cbn. now rewrite orb_false_r, orb_comm.
Qed.

Lemma add_column_present (n : string) (cols : list string) :
  existsb (String.eqb n) cols = true -> add_column n cols = cols.
Proof. unfold add_column. now intros ->. Qed.

Lemma in_add_column (x n : string) (cols : list string) :
  In x (add_column n cols) <-> x = n \/ In x cols.
Proof.
  unfold add_column. destruct (existsb (String.eqb n) cols) eqn:E.
  - split; [auto |]. intros [-> | H]; [| assumption].
    apply existsb_exists in E as (y & Hy & Heq). apply String.eqb_eq in Heq. now subst.
  - rewrite in_app_iff. cbn. intuition congruence.
Qed.

Lemma aggregated_columns_again (cols : list string) :
  aggregated_columns (aggregated_columns cols) = aggregated_columns cols.
Proof.
  unfold aggregated_columns at 1.
  set (c := aggregated_columns cols).
  assert (H : forall n, In n ["Year"; "WeekOfYear"; "Month"; "Half"]%string ->
                        existsb (String.eqb n) c = true).
  { intros n Hn. unfold c, aggregated_columns. rewrite !existsb_add_column.
    cbn in Hn. repeat (destruct Hn as [<- | Hn]; [cbn; now rewrite ?orb_true_r |]).
    contradiction. }
  rewrite (add_column_present "Year") by (apply H; cbn; auto).
  rewrite (add_column_present "WeekOfYear") by (apply H; cbn; auto).
  rewrite (add_column_present "Month") by (apply H; cbn; auto).
  now rewrite (add_column_present "Half") by (apply H; cbn; auto 6).
Qed.

Lemma aggregated_rows_nonempty (df : list score) (dates : list (option timestamp)) :
  List.length dates = List.length df -> df <> [] -> aggregated_rows df dates <> [].
Proof.
  intros Hl Hne Hnil. apply Hne. apply length_zero_iff_nil.
  rewrite <- (aggregated_rows_length df dates Hl), Hnil. reflexivity.
Qed.

(** A completed run is a fixed point: run again, it returns the tracker it
    was given. *)
Lemma aggregation_result_fixed (st : tracker) (dates : list (option timestamp)) :
  rows (daily_scores (dataframes st)) <> [] ->
  to_datetime_series R (map Date (rows (daily_scores (dataframes st)))) = Some dates ->
  calculate_all_averages R (aggregation_result st dates)
  = (Return tt, aggregation_result st dates).
Proof.
  intros Hne Hdates.
  pose proof (to_datetime_series_length R _ _ Hdates) as Hlen.
  rewrite length_map in Hlen.
  rewrite (calculate_all_averages_returns R _ dates).
  - f_equal. unfold aggregation_result.
    cbn [dataframes files daily_scores rows extra_columns with_averages with_daily_scores
         subjects definitions].
    rewrite aggregated_rows_again, aggregated_columns_again. reflexivity.
  - cbn. now apply aggregated_rows_nonempty.
  - cbn. rewrite aggregated_rows_Date by assumption.
    apply to_datetime_series_datetime64.
Qed.

(** C9: when the daily-scores table is empty, [calculate_all_averages]
    does nothing: it returns, and the tracker (the three averages tables in
    memory and their files with it) is as it was before the call. *)
Theorem empty_scores_leave_averages_untouched (st : tracker) :
  rows (daily_scores (dataframes st)) = [] ->
  calculate_all_averages R st = (Return tt, st).
Proof.
  intros H. unfold calculate_all_averages. now rewrite H.
Qed.

(** C5: [calculate_all_averages] is idempotent.  Run twice in a row, the
    second run leaves the weekly, monthly and semi-annual tables, in memory
    and on disk, equal to those the first run left (same rows, same
    [AverageID], [AverageScore] and [DataPointsCount]); indeed the second
    run ends as the first did and changes nothing at all any more. *)
Theorem calculate_all_averages_idempotent (st : tracker) :
  let run1 := calculate_all_averages R st in
  let run2 := calculate_all_averages R (snd run1) in
  averages (dataframes (snd run2)) = averages (dataframes (snd run1)) /\
  averages (files (snd run2)) = averages (files (snd run1)) /\
  run2 = run1.
Proof.
  cbv zeta.
  assert (H : calculate_all_averages R (snd (calculate_all_averages R st))
              = calculate_all_averages R st).
  { destruct (calculate_all_averages_cases R st)
      as [[_ E] | [(_ & _ & E) | (dates & Hne & Hd & E)]];
      rewrite E; cbn [snd]; try assumption.
    now apply aggregation_result_fixed. }
  now rewrite H.
Qed.

(** C6: on a run over a non-empty daily-scores table that completes, each
    of the three averages tables has one row for each distinct
    ([DefinitionID], [Year], period) among the rows that have a date, in
    ascending order of that key, and its [AverageID] column is 1..N over
    these N rows.  The tables are determined by the rows of the
    daily-scores table alone: any run of any tracker holding the same rows
    leaves the same three tables, row for row. *)
Theorem average_ids_dense_and_deterministic (st st' : tracker) :
  rows (daily_scores (dataframes st)) <> [] ->
  calculate_all_averages R st = (Return tt, st') ->
  (forall table period,
     In (table, period)
        [(weekly_averages (dataframes st'), score_WeekOfYear);
         (monthly_averages (dataframes st'), score_Month);
         (semi_annual_averages (dataframes st'), score_Half)] ->
     map AverageID table = range 1 (count table + 1) /\
     map key_of_average table
     = sorted_keys (keys_of (by_columns period) (rows (daily_scores (dataframes st')))) /\
     forall r k,
       In r (rows (daily_scores (dataframes st'))) -> by_columns period r = Some k ->
       exists a, In a table /\ key_of_average a = k /\ 1 <= AverageID a <= count table) /\
  (forall other other',
     rows (daily_scores (dataframes other)) = rows (daily_scores (dataframes st)) ->
     calculate_all_averages R other = (Return tt, other') ->
     averages (dataframes other') = averages (dataframes st')).
Proof.
  intros Hne Hrun.
  destruct (calculate_all_averages_cases R st)
    as [[E _] | [(_ & _ & E) | (dates & _ & Hd & E)]];
    [contradiction | congruence |].
  rewrite E in Hrun. injection Hrun as <-. split.
  - assert (Hall : forall period df,
               let table := averages_by period df in
               map AverageID table = range 1 (count table + 1) /\
               map key_of_average table = sorted_keys (keys_of (by_columns period) df) /\
               forall r k, In r df -> by_columns period r = Some k ->
                 exists a, In a table /\ key_of_average a = k /\
                           1 <= AverageID a <= count table).
    { intros period df table.
      assert (Hids : map AverageID table = range 1 (count table + 1))
        by apply with_AverageID_ids.
      assert (Hkeys : map key_of_average table
                      = sorted_keys (keys_of (by_columns period) df)).
      { unfold table, averages_by. rewrite with_AverageID_keys.
        unfold groupby_mean_count. rewrite map_map. cbn. apply map_id. }
      split; [exact Hids | split; [exact Hkeys |]].
      intros r k Hr Hk.
      assert (Hin : In k (map key_of_average table)).
      { rewrite Hkeys. apply in_sorted_keys. apply in_keys_of. now exists r. }
      apply in_map_iff in Hin as (a & Ha & Hin). exists a.
      split; [exact Hin | split; [exact Ha |]].
      assert (Hid : In (AverageID a) (map AverageID table)) by now apply in_map.
      rewrite Hids in Hid. unfold range in Hid.
      apply in_map_iff in Hid as (i & <- & Hi). apply in_seq in Hi.
      rewrite Z.add_simpl_r in Hi. unfold count in *. lia. }
    intros table period [[= <- <-] | [[= <- <-] | [[= <- <-] | []]]]; apply Hall.
  - intros other other' Hrows Hother.
    destruct (calculate_all_averages_cases R other)
      as [[E' _] | [(_ & _ & E') | (dates' & _ & Hd' & E')]];
      [congruence | congruence |].
    rewrite E' in Hother. injection Hother as <-.
    rewrite Hrows, Hd in Hd'. injection Hd' as <-.
    unfold aggregation_result, averages; cbn. now rewrite Hrows.
Qed.

(** C10: a run over a non-empty daily-scores table rewrites that table in
    memory: its [Date] column becomes the converted datetime values, the
    columns [Year], [WeekOfYear], [Month] and [Half] are in its column
    index, and every row carries their values; the [daily_scores] file is
    not written, nor are the subjects and definitions; the three averages
    tables are, and their files hold what memory holds. *)
Theorem aggregation_rewrites_scores_in_memory_only
    (st : tracker) (dates : list (option timestamp)) :
  rows (daily_scores (dataframes st)) <> [] ->
  to_datetime_series R (map Date (rows (daily_scores (dataframes st)))) = Some dates ->
  exists st',
    calculate_all_averages R st = (Return tt, st') /\
    map Date (rows (daily_scores (dataframes st'))) = map datetime64 dates /\
    rows (daily_scores (dataframes st'))
      = aggregated_rows (rows (daily_scores (dataframes st))) dates /\
    (forall name, In name ["Year"; "WeekOfYear"; "Month"; "Half"]%string ->
                  In name (extra_columns (daily_scores (dataframes st')))) /\
    daily_scores (files st') = daily_scores (files st) /\
    subjects (files st') = subjects (files st) /\
    definitions (files st') = definitions (files st) /\
    subjects (dataframes st') = subjects (dataframes st) /\
    definitions (dataframes st') = definitions (dataframes st) /\
    averages (files st') = averages (dataframes st').
Proof.
  intros Hne Hd. exists (aggregation_result st dates).
  pose proof (to_datetime_series_length R _ _ Hd) as Hlen. rewrite length_map in Hlen.
  split; [now apply calculate_all_averages_returns |].
  unfold aggregation_result; cbn.
  split; [now apply aggregated_rows_Date |].
  split; [reflexivity |].
  split; [| now repeat split].
  intros name Hn. unfold aggregated_columns. rewrite !in_add_column.
  cbn in Hn. intuition congruence.
Qed.

End AggregationRun.

(** ** The repository: rejected and accepted writes *)

Section RepositoryFacts.

Variable R : Runtime.

(** [int] raises a [ValueError] or a [TypeError], which its callers catch,
    or, on an infinite float and on nothing else, an [OverflowError], which
    they do not. *)
Lemma py_int_raises (v : pyval) (e : exn) :
  py_int R v = Raise e ->
  is_ValueError_or_TypeError e = true \/
  (e = OverflowError /\ exists negative, v = PyFloat (Infinity negative)).
Proof.
  destruct v as [| n | [q | b |] | s | d]; cbn; try (intros [= <-]; now left).
  - intros [= <-]. right. split; [reflexivity | now exists b].
  - destruct (int_of_str R s); [discriminate | intros [= <-]; now left].
Qed.

Lemma empty_filter {A : Type} (f : A -> bool) (l : list A) :
  empty (filter f l) = true <-> forall x, In x l -> f x = false.
Proof.
  induction l as [| a l IH]; cbn; [intuition |].
  destruct (f a) eqn:E; cbn.
  - split; [discriminate |]. intros H. specialize (H a (or_introl eq_refl)). congruence.
  - rewrite IH. split; [intros H x [<- | Hx]; auto | auto].
Qed.

Lemma nonempty_filter {A : Type} (f : A -> bool) (l : list A) (x : A) :
  In x l -> f x = true -> empty (filter f l) = false.
Proof.
  intros Hin Hf. destruct (empty (filter f l)) eqn:E; [| reflexivity].
  rewrite empty_filter in E. specialize (E x Hin). congruence.
Qed.














(** C2, what the code does against it: [log_score] does not return for
    every input.  With a definition that exists and a score within 1..10,
    a date that [pandas.to_datetime] refuses makes [log_score] raise that
    exception: only the two [int] conversions are inside the [try].
    Nothing has been written by then. *)
Theorem log_score_raises_on_unparseable_date
    (definition_id date score : pyval) (notes : string) (st : tracker)
    (n s : Z) (row : definition) (e : exn) :
  py_int R definition_id = Return n ->
  py_int R score = Return s ->
  1 <= s <= 10 ->
  In row (definitions (dataframes st)) -> DefinitionID row = n ->
  to_datetime R date = Raise e ->
  log_score R definition_id date score notes st = (Raise e, st).
Proof.
  intros Hn Hs Hrange Hrow Hid Hdate. unfold log_score. rewrite Hn, Hs.
  assert (Hr : (1 <=? s) && (s <=? 10) = true)
    by (apply andb_true_iff; split; apply Z.leb_le; lia).
  rewrite Hr. cbn [negb].
  rewrite (nonempty_filter _ _ row Hrow) by (now apply Z.eqb_eq).
  now rewrite Hdate.
Qed.



(** When a write raises: [add_subject] on a label that is not a [str],
    [add_behavior_definition] on an infinite float, [log_score] on an
    infinite float or on a date that does not convert.  Nothing has been
    assigned or saved by then. *)
Lemma add_subject_raise (now : string) (label : pyval) (st : tracker) (e : exn) :
  fst (add_subject now label st) = Raise e ->
  snd (add_subject now label st) = st /\ e = AttributeError.
Proof.
  destruct label as [| n | x | label | d]; cbn; try (now intros [= <-]).
  destruct (negb (nonempty (strip label))); [discriminate |].
  destruct (negb (empty _)); discriminate.
Qed.

Lemma add_behavior_definition_raise
    (subject_id : pyval) (behavior_name description : string) (st : tracker) (e : exn) :
  fst (add_behavior_definition R subject_id behavior_name description st) = Raise e ->
  snd (add_behavior_definition R subject_id behavior_name description st) = st /\
  e = OverflowError /\ exists negative, subject_id = PyFloat (Infinity negative).
Proof.
  unfold add_behavior_definition.
  destruct (negb (nonempty behavior_name) || negb (nonempty (strip behavior_name)));
    [discriminate |].
  destruct (py_int R subject_id) as [n | e'] eqn:E.
  - destruct (empty _); discriminate.
  - destruct (py_int_raises _ _ E) as [Hc | [-> Hinf]].
    + rewrite Hc. discriminate.
    + cbn. intros [= <-]. auto.
Qed.

Lemma log_score_raise
    (definition_id date score : pyval) (notes : string) (st : tracker) (e : exn) :
  fst (log_score R definition_id date score notes st) = Raise e ->
  snd (log_score R definition_id date score notes st) = st /\
  ((e = OverflowError /\
    exists negative, definition_id = PyFloat (Infinity negative) \/
                     score = PyFloat (Infinity negative)) \/
   forall t, to_datetime R date <> Return (Stamp t)).
Proof.
  unfold log_score.
  destruct (py_int R definition_id) as [n | e'] eqn:En.
  2:{ destruct (py_int_raises _ _ En) as [Hc | [-> [b Hinf]]].
      - rewrite Hc. discriminate.
      - cbn. intros [= <-]. split; [reflexivity |]. left. split; [reflexivity |].
        exists b. now left. }
  destruct (py_int R score) as [s | e'] eqn:Es.
  2:{ destruct (py_int_raises _ _ Es) as [Hc | [-> [b Hinf]]].
      - rewrite Hc. discriminate.
      - cbn. intros [= <-]. split; [reflexivity |]. left. split; [reflexivity |].
        exists b. now right. }
  destruct (negb ((1 <=? s) && (s <=? 10))); [discriminate |].
  destruct (empty _); [discriminate |].
  destruct (to_datetime R date) as [[t | |] | e'']; cbn; [discriminate | | |];
    intros _; (split; [reflexivity | right; discriminate]).
Qed.

End RepositoryFacts.

(** ** The buckets *)

Section Buckets.

Lemma key_eqb_columns (a b c a' b' c' : Z) :
  key_eqb (a, b, c) (a', b', c') = (a' =? a) && (b' =? b) && (c' =? c).
Proof.
  destruct (key_eqb (a, b, c) (a', b', c')) eqn:E.
  - apply key_eqb_eq in E. injection E as -> -> ->. now rewrite !Z.eqb_refl.
  - symmetry. apply not_true_is_false. intros H.
    apply andb_true_iff in H as [H H3]. apply andb_true_iff in H as [H1 H2].
    apply Z.eqb_eq in H1, H2, H3. subst.
    rewrite (proj2 (key_eqb_eq _ _) eq_refl) in E. discriminate.
Qed.

(** A row with values in the key columns is counted in the row of its
    group. *)
Lemma averages_by_complete (period : score -> option Z) (df : list score)
    (r : score) (y p : Z) :
  In r df -> score_Year r = Some y -> period r = Some p ->
  exists a, In a (averages_by period df) /\
    avg_DefinitionID a = score_DefinitionID r /\ Year a = y /\ Period a = p /\
    DataPointsCount a
    = count (filter (in_group (by_columns period) (score_DefinitionID r, y, p)) df) /\
    AverageScore a
    = mean (map Score
              (filter (in_group (by_columns period) (score_DefinitionID r, y, p)) df)).
Proof.
  intros Hin Hy Hp.
  set (k := (score_DefinitionID r, y, p)).
  assert (Hk : by_columns period r = Some k) by (unfold by_columns; now rewrite Hy, Hp).
  assert (Hkeys : In k (sorted_keys (keys_of (by_columns period) df))).
  { apply in_sorted_keys, in_keys_of. now exists r. }
  destruct (with_AverageID_complete
              (groupby_mean_count (by_columns period) df) k
              (mean (map Score (filter (in_group (by_columns period) k) df)))
              (count (filter (in_group (by_columns period) k) df)))
    as (a & Ha & H1 & H2 & H3 & H4 & H5).
  { unfold groupby_mean_count. apply in_map_iff. now exists k. }
  exists a. now repeat split.
Qed.

Lemma NoDup_map_eq {A B : Type} (f : A -> B) (l : list A) (x y : A) :
  NoDup (map f l) -> In x l -> In y l -> f x = f y -> x = y.
Proof.
  induction l as [| a l IH]; cbn; [contradiction |].
  intros Hnd Hx Hy Hf. apply NoDup_cons_iff in Hnd as [Hna Hnd].
  destruct Hx as [-> | Hx], Hy as [-> | Hy]; auto.
  - exfalso. apply Hna. rewrite Hf. now apply in_map.
  - exfalso. apply Hna. rewrite <- Hf. now apply in_map.
Qed.

(** One row per key: two rows of a table with the same key are the same
    row. *)
Lemma averages_by_unique (period : score -> option Z) (df : list score) (a a' : average) :
  In a (averages_by period df) -> In a' (averages_by period df) ->
  key_of_average a' = key_of_average a -> a' = a.
Proof.
  intros Ha Ha' Hk.
  exact (NoDup_map_eq key_of_average _ a' a
           (proj2 (groupby_table_sorted _ df)) Ha' Ha Hk).
Qed.

Lemma in_aggregated_rows (df : list score) (dates : list (option timestamp)) (r : score) :
  In r (aggregated_rows df dates) -> exists r0 o, r = aggregated r0 o.
Proof.
  unfold aggregated_rows. rewrite in_map_iff. intros ([r0 o] & <- & _). now exists r0, o.
Qed.

Lemma same_iso_week_group (df : list score) (dates : list (option timestamp))
    (definition_id : Z) (d : date) :
  filter (in_group (by_columns score_WeekOfYear) (definition_id, iso_year d, iso_week d))
         (aggregated_rows df dates)
  = filter (same_iso_week definition_id d) (aggregated_rows df dates).
Proof.
  apply filter_ext_in. intros r Hr.
  apply in_aggregated_rows in Hr as (r0 & o & ->).
  unfold in_group, by_columns, same_iso_week. cbn. rewrite dt_datetime64.
  destruct o as [t |]; cbn; [| now rewrite andb_false_r].
  rewrite key_eqb_columns. now rewrite andb_assoc.
Qed.

End Buckets.

(** C4: the weekly aggregation buckets every daily-score row by the ISO
    8601 week-numbering year and week number of its date: the weekly table
    has a row of the score's definition whose [Year] and [WeekOfYear] are
    the ISO week date of the score's date, it counts and averages exactly
    the scores of that definition dated in that ISO week, and it is the
    only row of its key.  A score dated Sunday 2023-01-01 is in the bucket
    [Year] 2022, [WeekOfYear] 52. *)
Theorem weekly_bucket_is_iso_week :
  (forall (R : Runtime) (st st' : tracker) (r : score) (d : date),
     calculate_all_averages R st = (Return tt, st') ->
     In r (rows (daily_scores (dataframes st'))) ->
     dt (Date r) = Some d ->
     valid_date d ->
     exists a,
       In a (weekly_averages (dataframes st')) /\
       avg_DefinitionID a = score_DefinitionID r /\
       Year a = iso_year d /\ WeekOfYear a = iso_week d /\
       iso8601_week_date d (Year a) (WeekOfYear a) /\
       DataPointsCount a
       = count (filter (same_iso_week (score_DefinitionID r) d)
                       (rows (daily_scores (dataframes st')))) /\
       AverageScore a
       = mean (map Score (filter (same_iso_week (score_DefinitionID r) d)
                                 (rows (daily_scores (dataframes st'))))) /\
       (forall a', In a' (weekly_averages (dataframes st')) ->
                   key_of_average a' = key_of_average a -> a' = a)) /\
  (let st' := snd (calculate_all_averages Reference.runtime rex_new_year) in
   map (fun r => (score_DefinitionID r, Date r)) (rows (daily_scores (dataframes st')))
   = [(1, DateStamp (mkStamp (mkDate 2023 1 1) 0))] /\
   weekday (mkDate 2023 1 1) = 6 /\
   map (fun a => (avg_DefinitionID a, Year a, WeekOfYear a, DataPointsCount a))
       (weekly_averages (dataframes st'))
   = [(1, 2022, 52, 1)]).
Proof.
  split; [| now vm_compute].
  intros R st st' r d Hrun Hin Hd Hvalid.
  destruct (calculate_all_averages_cases R st)
    as [[Hnil E] | [(_ & _ & E) | (dates & _ & _ & E)]];
    rewrite E in Hrun; [| discriminate |]; injection Hrun as <-.
  - rewrite Hnil in Hin. contradiction.
  - unfold aggregation_result in *. cbn in Hin |- *.
    destruct (in_aggregated_rows _ _ _ Hin) as (r0 & o & Hr).
    assert (Ho : option_map ts_date o = Some d)
      by (rewrite <- dt_datetime64, <- Hd, Hr; reflexivity).
    destruct (averages_by_complete score_WeekOfYear _ r (iso_year d) (iso_week d) Hin)
      as (a & Ha & H1 & H2 & H3 & H4 & H5).
    { rewrite Hr. cbn. now rewrite Ho. }
    { rewrite Hr. cbn. now rewrite Ho. }
    rewrite same_iso_week_group in H4, H5.
    exists a. unfold WeekOfYear. rewrite H2, H3.
    repeat split; try assumption; try (now apply isocalendar_iso8601).
    intros a' Ha' Hk. exact (averages_by_unique _ _ _ _ Ha Ha' Hk).
Qed.

(** C1, what the code does against it: the monthly and the semi-annual
    table group every score under the calendar month (and the half that
    month lies in) of its date, but under the ISO week-numbering year, not
    the calendar year: both group by the column [Year], which holds
    [isocalendar().year] since the weekly step. *)
Theorem monthly_and_half_year_is_iso_year
    (R : Runtime) (st st' : tracker) (r : score) (d : date) :
  calculate_all_averages R st = (Return tt, st') ->
  In r (rows (daily_scores (dataframes st'))) ->
  dt (Date r) = Some d ->
  (exists a, In a (monthly_averages (dataframes st')) /\
     avg_DefinitionID a = score_DefinitionID r /\
     Year a = iso_year d /\ Month a = month d) /\
  (exists a, In a (semi_annual_averages (dataframes st')) /\
     avg_DefinitionID a = score_DefinitionID r /\
     Year a = iso_year d /\ Half a = (month d - 1) / 6 + 1).
Proof.
  intros Hrun Hin Hd.
  destruct (calculate_all_averages_cases R st)
    as [[Hnil E] | [(_ & _ & E) | (dates & _ & _ & E)]];
    rewrite E in Hrun; [| discriminate |]; injection Hrun as <-.
  - rewrite Hnil in Hin. contradiction.
  - unfold aggregation_result in *. cbn in Hin |- *.
    destruct (in_aggregated_rows _ _ _ Hin) as (r0 & o & Hr).
    assert (Ho : option_map ts_date o = Some d)
      by (rewrite <- dt_datetime64, <- Hd, Hr; reflexivity).
    split.
    + destruct (averages_by_complete score_Month _ r (iso_year d) (month d) Hin)
        as (a & Ha & H1 & H2 & H3 & _);
        [rewrite Hr; cbn; now rewrite Ho .. |].
      exists a. now repeat split.
    + destruct (averages_by_complete score_Half _ r (iso_year d) ((month d - 1) / 6 + 1) Hin)
        as (a & Ha & H1 & H2 & H3 & _);
        [rewrite Hr; cbn; now rewrite Ho .. |].
      exists a. now repeat split.
Qed.

(** X1: every averages table lists its groups in ascending order of
    ([DefinitionID], [Year], period), one row per key. *)
Theorem averages_by_sorted (period : score -> option Z) (df : list score) :
  Sorted key_lt (map key_of_average (averages_by period df)) /\
  NoDup (map key_of_average (averages_by period df)).
Proof. unfold averages_by. apply groupby_table_sorted. Qed.

(** X2: a write that raises changes nothing.  When [add_subject],
    [add_behavior_definition] or [log_score] raises, the tracker, its
    tables in memory and its files, is as it was before the call.
    [add_subject] raises an [AttributeError]; [add_behavior_definition]
    raises only the [OverflowError] of [int] on an infinite float;
    [log_score] raises only that or when its date does not convert. *)
Theorem a_write_that_raises_changes_nothing (R : Runtime) (st : tracker) (e : exn) :
  (forall now label,
     fst (add_subject now label st) = Raise e ->
     snd (add_subject now label st) = st /\ e = AttributeError) /\
  (forall subject_id behavior_name description,
     fst (add_behavior_definition R subject_id behavior_name description st) = Raise e ->
     snd (add_behavior_definition R subject_id behavior_name description st) = st /\
     e = OverflowError /\ exists negative, subject_id = PyFloat (Infinity negative)) /\
  (forall definition_id date score notes,
     fst (log_score R definition_id date score notes st) = Raise e ->
     snd (log_score R definition_id date score notes st) = st /\
     ((e = OverflowError /\
       exists negative, definition_id = PyFloat (Infinity negative) \/
                        score = PyFloat (Infinity negative)) \/
      forall t, to_datetime R date <> Return (Stamp t))).
Proof.
  split; [| split]; intros.
  - now apply add_subject_raise.
  - now apply add_behavior_definition_raise.
  - now apply log_score_raise.
Qed.

(** X3: [calculate_all_averages] returns unless the [Date] column does
    not convert; then it raises and the tracker is as it was. *)
Theorem calculate_all_averages_returns_or_dates_fail (R : Runtime) (st : tracker) :
  fst (calculate_all_averages R st) = Return tt \/
  (to_datetime_series R (map Date (rows (daily_scores (dataframes st)))) = None /\
   calculate_all_averages R st = (Raise ValueError, st)).
Proof.
  destruct (calculate_all_averages_cases R st)
    as [[_ E] | [(_ & Hd & E) | (dates & _ & _ & E)]].
  - left. now rewrite E.
  - right. now split.
  - left. now rewrite E.
Qed.

(** The half-year of a calendar month: months 1-6 are half 1, months 7-12
    half 2. *)
Lemma half_of_month (m : Z) :
  1 <= m <= 12 ->
  (m - 1) / 6 + 1 = (if m <=? 6 then 1 else 2).
Proof.
  intros H. destruct (Z.leb_spec m 6); Z.to_euclidean_division_equations; lia.
Qed.

(** Scores of 4 and 6 in January 2024 and of 10 in February: the monthly
    table has the mean 5 of two scores, then the mean 10 of one. *)
Example monthly_means_of_2024 :
  let log d s st := snd (log_score Reference.runtime (PyInt 1) (PyStr d) (PyInt s) "" st) in
  let st := log "2024-02-10"%string 10
              (log "2024-01-03"%string 6 (log "2024-01-01"%string 4 rex)) in
  monthly_averages (dataframes (snd (calculate_all_averages Reference.runtime st)))
  = [mkAverage 1 1 2024 1 5 2; mkAverage 2 1 2024 2 10 1].
Proof. now vm_compute. Qed.

(** [add_subject(" Rex ")] stores the trimmed label under the next id. *)
Example add_subject_trims :
  subjects (dataframes (snd (add_subject "2024-01-01 10:00:00" (PyStr " Rex ") fresh)))
  = [mkSubject 1 "Rex" "2024-01-01 10:00:00"].
Proof. reflexivity. Qed.

(** The tables of the sample run, in full. *)
Example rex_new_year_tables :
  let st' := snd (calculate_all_averages Reference.runtime rex_new_year) in
  weekly_averages (dataframes st') = [mkAverage 1 1 2022 52 5 1] /\
  monthly_averages (dataframes st') = [mkAverage 1 1 2022 1 5 1] /\
  semi_annual_averages (dataframes st') = [mkAverage 1 1 2022 1 5 1].
Proof. now vm_compute. Qed.

(** ** Sessions: what every call keeps *)

Section SessionFacts.

Variable R : Runtime.

Lemma nonempty_filter_inv {A : Type} (f : A -> bool) (l : list A) :
  empty (filter f l) = false -> exists x, In x l /\ f x = true.
Proof.
  induction l as [| a l IH]; cbn; [discriminate |].
  destruct (f a) eqn:E.
  - intros _. exists a. auto.
  - intros H. destruct (IH H) as (x & Hx & Hf). exists x. auto.
Qed.

Lemma nonempty_true (s : string) : nonempty s = true -> s <> EmptyString.
Proof. destruct s; [discriminate | discriminate]. Qed.

Lemma add_subject_effect (now : string) (label : pyval) (st : tracker) :
  effect R st (snd (add_subject now label st)).
Proof.
  destruct label as [| n | x | label | d]; try apply effect_none.
  unfold add_subject.
  destruct (nonempty (strip label)) eqn:E; cbn [negb]; [| apply effect_none].
  destruct (empty (filter _ (subjects (dataframes st)))) eqn:Ef; cbn [negb];
    [| apply effect_none].
  cbn [snd]. apply (effect_subject R st now label).
  - now apply nonempty_true.
  - intros s Hs Heq. rewrite empty_filter in Ef. specialize (Ef s Hs). cbn in Ef.
    rewrite Heq, String.eqb_refl in Ef. discriminate.
Qed.

Lemma add_behavior_definition_effect
    (subject_id : pyval) (behavior_name description : string) (st : tracker) :
  effect R st (snd (add_behavior_definition R subject_id behavior_name description st)).
Proof.
  unfold add_behavior_definition.
  destruct (nonempty behavior_name); cbn [negb orb]; [| apply effect_none].
  destruct (nonempty (strip behavior_name)) eqn:E; cbn [negb]; [| apply effect_none].
  destruct (py_int R subject_id) as [n | e];
    [| destruct (is_ValueError_or_TypeError e); apply effect_none].
  destruct (empty (filter _ (subjects (dataframes st)))) eqn:Ef; [apply effect_none |].
  cbn [snd]. apply (effect_definition R st n behavior_name description).
  - now apply nonempty_true.
  - apply nonempty_filter_inv in Ef as (s & Hs & Hid). exists s. split; [assumption |].
    now apply Z.eqb_eq.
Qed.

Lemma log_score_effect
    (definition_id date score : pyval) (notes : string) (st : tracker) :
  effect R st (snd (log_score R definition_id date score notes st)).
Proof.
  unfold log_score.
  destruct (py_int R definition_id) as [n | e];
    [| destruct (is_ValueError_or_TypeError e); apply effect_none].
  destruct (py_int R score) as [s | e];
    [| destruct (is_ValueError_or_TypeError e); apply effect_none].
  destruct ((1 <=? s) && (s <=? 10)) eqn:Er; cbn [negb]; [| apply effect_none].
  destruct (empty (filter _ (definitions (dataframes st)))) eqn:Ef; [apply effect_none |].
  destruct (to_datetime R date) as [[t | |] | e]; try apply effect_none.
  cbn [snd]. apply (effect_score R st n t s notes).
  - apply andb_true_iff in Er as [H1 H2]. apply Z.leb_le in H1, H2. lia.
  - apply nonempty_filter_inv in Ef as (d & Hd & Hid). exists d. split; [assumption |].
    now apply Z.eqb_eq.
Qed.

Lemma calculate_all_averages_effect (st : tracker) :
  effect R st (snd (calculate_all_averages R st)).
Proof.
  destruct (calculate_all_averages_cases R st)
    as [[_ E] | [(_ & _ & E) | (dates & Hne & Hd & E)]]; rewrite E; cbn [snd];
    try apply effect_none.
  now apply effect_aggregation.
Qed.

(** A call leaves the tracker as it is or makes exactly one change. *)
Lemma step_effect (st st' : tracker) : step R st st' -> effect R st st'.
Proof.
  intros [now label st0 | sid name desc st0 | did date score notes st0 | st0].
  - apply add_subject_effect.
  - apply add_behavior_definition_effect.
  - apply log_score_effect.
  - apply calculate_all_averages_effect.
Qed.

Lemma fold_left_max_ge (xs : list Z) (a : Z) :
  a <= fold_left Z.max xs a /\ forall y, In y xs -> y <= fold_left Z.max xs a.
Proof.
  revert a. induction xs as [| x xs IH]; intros a; cbn; [split; [lia | contradiction] |].
  destruct (IH (Z.max a x)) as [H1 H2]. split; [lia |].
  intros y [<- | Hy]; [lia | now apply H2].
Qed.

Lemma fold_left_max_in (xs : list Z) (a : Z) : In (fold_left Z.max xs a) (a :: xs).
Proof.
  revert a. induction xs as [| x xs IH]; intros a; cbn; [now left |].
  destruct (IH (Z.max a x)) as [H | H]; [| now right; right].
  destruct (Z.max_spec a x) as [[_ E] | [_ E]]; rewrite E in *; auto.
Qed.

(** [_get_next_id] is above every ID of the table. *)
Lemma get_next_id_above {A : Type} (df : list A) (id_column : A -> Z) (x : A) :
  In x df -> id_column x < get_next_id df id_column.
Proof.
  intros Hin. unfold get_next_id. apply (in_map id_column) in Hin.
  destruct (map id_column df) as [| a xs]; [contradiction |].
  destruct (fold_left_max_ge xs a) as [H1 H2].
  destruct Hin as [<- | Hin]; [lia | specialize (H2 _ Hin); lia].
Qed.

Lemma get_next_id_not_in {A : Type} (df : list A) (id_column : A -> Z) :
  ~ In (get_next_id df id_column) (map id_column df).
Proof.
  intros Hin. apply in_map_iff in Hin as (x & Heq & Hx).
  pose proof (get_next_id_above df id_column x Hx). lia.
Qed.

Lemma NoDup_snoc {A : Type} (l : list A) (a : A) : NoDup l -> ~ In a l -> NoDup (l ++ [a]).
Proof.
  intros Hl Ha. apply NoDup_app; [assumption | repeat constructor; intros [] |].
  intros x Hx [<- | []]. contradiction.
Qed.

Lemma aggregated_rows_logged (df : list score) (dates : list (option timestamp)) :
  List.length dates = List.length df ->
  map logged (aggregated_rows df dates) = map logged df.
Proof.
  unfold aggregated_rows. revert dates.
  induction df as [| r df IH]; intros [| o dates]; cbn; try discriminate; [reflexivity |].
  intros [= H]. now rewrite IH.
Qed.

Lemma map_logged_LogID (df df' : list score) :
  map logged df = map logged df' -> map LogID df = map LogID df'.
Proof.
  intros H. apply (f_equal (map (fun x => fst (fst (fst x))))) in H.
  now rewrite !map_map in H.
Qed.

Lemma map_logged_Score (df df' : list score) :
  map logged df = map logged df' -> map Score df = map Score df'.
Proof.
  intros H. apply (f_equal (map (fun x => snd (fst x)))) in H.
  now rewrite !map_map in H.
Qed.

Lemma map_logged_DefinitionID (df df' : list score) :
  map logged df = map logged df' ->
  map score_DefinitionID df = map score_DefinitionID df'.
Proof.
  intros H. apply (f_equal (map (fun x => snd (fst (fst x))))) in H.
  now rewrite !map_map in H.
Qed.

End SessionFacts.

(** ** Facts about [strip], [_get_next_id] and [range] *)

Section TextFacts.

Lemma lstrip_head (s : string) :
  lstrip s = EmptyString \/
  exists c t, lstrip s = String c t /\ isspace c = false.
Proof.
  induction s as [| c s IH]; cbn; [now left |].
  destruct (isspace c) eqn:E; [assumption |]. right. now exists c, s.
Qed.

Lemma rstrip_head (c : ascii) (t : string) :
  isspace c = false -> exists t', rstrip (String c t) = String c t'.
Proof.
  intros E. cbn. destruct (rstrip t); rewrite ?E; eauto.
Qed.

Lemma rstrip_rstrip (s : string) : rstrip (rstrip s) = rstrip s.
Proof.
  induction s as [| c s IH]; [reflexivity |].
  change (rstrip (String c s))
    with (match rstrip s with
          | EmptyString => if isspace c then EmptyString else String c EmptyString
          | r => String c r
          end).
  destruct (rstrip s) as [| a r] eqn:E.
  - destruct (isspace c) eqn:Ec; [reflexivity | cbn; now rewrite Ec].
  - change (rstrip (String c (String a r)))
      with (match rstrip (String a r) with
            | EmptyString => if isspace c then EmptyString else String c EmptyString
            | r0 => String c r0
            end).
    now rewrite IH.
Qed.

Lemma lstrip_nonspace (c : ascii) (t : string) :
  isspace c = false -> lstrip (String c t) = String c t.
Proof. intros E. cbn. now rewrite E. Qed.

(** Trimming a trimmed string changes nothing. *)
Lemma strip_strip (s : string) : strip (strip s) = strip s.
Proof.
  unfold strip. destruct (lstrip_head s) as [E | (c & t & E & Hc)]; rewrite E.
  - reflexivity.
  - destruct (rstrip_head c t Hc) as (t' & Et).
    rewrite Et, (lstrip_nonspace c t' Hc), <- Et. apply rstrip_rstrip.
Qed.

Lemma range_snoc (lo hi : Z) : lo <= hi -> range lo hi ++ [hi] = range lo (hi + 1).
Proof.
  intros H. unfold range.
  replace (Z.to_nat (hi + 1 - lo)) with (S (Z.to_nat (hi - lo))) by lia.
  rewrite seq_S, map_app. cbn. do 2 f_equal. lia.
Qed.

Lemma in_range (lo hi x : Z) : In x (range lo hi) <-> lo <= x < hi.
Proof.
  unfold range. rewrite in_map_iff. split.
  - intros (i & <- & Hi). apply in_seq in Hi. lia.
  - intros H. exists (Z.to_nat (x - lo)). split; [lia |]. apply in_seq. lia.
Qed.

(** On a table numbered 1..n, [_get_next_id] is n + 1. *)
Lemma get_next_id_sequential {A : Type} (df : list A) (id_column : A -> Z) :
  map id_column df = range 1 (count df + 1) ->
  get_next_id df id_column = count df + 1.
Proof.
  intros H. unfold get_next_id.
  assert (Hlen : List.length (map id_column df) = List.length df) by apply length_map.
  destruct (map id_column df) as [| a xs] eqn:E.
  - destruct df; [reflexivity | discriminate].
  - destruct (fold_left_max_ge xs a) as [H1 H2].
    pose proof (fold_left_max_in xs a) as Hin.
    rewrite H in Hin. apply in_range in Hin.
    assert (Hn : In (count df) (a :: xs)).
    { rewrite H. apply in_range. unfold count. destruct df; [discriminate | cbn; lia]. }
    destruct Hn as [Hn | Hn]; [lia | specialize (H2 _ Hn); lia].
Qed.

Lemma sequential_snoc {A : Type} (df : list A) (id_column : A -> Z) (x : A) :
  map id_column df = range 1 (count df + 1) ->
  id_column x = get_next_id df id_column ->
  map id_column (df ++ [x]) = range 1 (count (df ++ [x]) + 1).
Proof.
  intros H Hx. rewrite map_app, H. cbn. rewrite Hx, (get_next_id_sequential _ _ H).
  unfold count. rewrite length_app. cbn.
  replace (Z.of_nat (List.length df + 1) + 1) with (Z.of_nat (List.length df) + 1 + 1) by lia.
  apply range_snoc. lia.
Qed.

Lemma in_aggregated_rows_source (df : list score) (dates : list (option timestamp))
    (r : score) :
  In r (aggregated_rows df dates) ->
  exists r0 o, In r0 df /\ In o dates /\ r = aggregated r0 o.
Proof.
  unfold aggregated_rows. rewrite in_map_iff. intros ([r0 o] & <- & Hin).
  exists r0, o. split; [now apply in_combine_l in Hin |].
  split; [now apply in_combine_r in Hin | reflexivity].
Qed.

End TextFacts.

(** ** Invariants of a session *)

(** X4: IDs never collide while they fit their column.  When no ID column
    of the three tables has a duplicate and every ID is below the largest
    [int64], no column has a duplicate after any call of [add_subject],
    [add_behavior_definition], [log_score] or [calculate_all_averages]:
    [_get_next_id] is above every ID in use. *)
Theorem ids_stay_unique (R : Runtime) (st st' : tracker) :
  step R st st' ->
  ids_below_int64_max (dataframes st) ->
  ids_unique (dataframes st) -> ids_unique (dataframes st').
Proof.
  intros Hstep _ (Hs & Hd & Hl). unfold ids_unique.
  destruct (step_effect R st st' Hstep)
    as [| now label _ _ df | n name desc _ _ df | n t sc notes _ _ df | dates Hne Hdates];
    cbn.
  - auto.
  - subst df. rewrite map_app. cbn.
    split; [| auto]. apply NoDup_snoc; [assumption | apply get_next_id_not_in].
  - subst df. rewrite map_app. cbn.
    split; [assumption |]. split; [| assumption].
    apply NoDup_snoc; [assumption | apply get_next_id_not_in].
  - rewrite map_app. cbn.
    split; [assumption |]. split; [assumption |].
    apply NoDup_snoc; [assumption | apply get_next_id_not_in].
  - split; [assumption |]. split; [assumption |].
    pose proof (to_datetime_series_length R _ _ Hdates) as Hlen.
    rewrite length_map in Hlen.
    now rewrite (map_logged_LogID _ _ (aggregated_rows_logged _ _ Hlen)).
Qed.

(** X5: from a fresh tracker, IDs count up from 1.  In every tracker a
    session reaches, the [SubjectID], [DefinitionID] and [LogID] columns
    are 1, 2, ..., n down their tables. *)
Theorem ids_are_sequential (R : Runtime) (st : tracker) :
  reachable R st -> ids_sequential (dataframes st).
Proof.
  induction 1 as [| st st' _ (Hs & Hd & Hl) Hstep]; [now repeat split |].
  unfold ids_sequential.
  destruct (step_effect R st st' Hstep)
    as [| now label _ _ df | n name desc _ _ df | n t sc notes _ _ df | dates Hne Hdates];
    cbn.
  - auto.
  - split; [| auto]. subst df. now apply sequential_snoc.
  - split; [assumption |]. split; [| assumption]. subst df. now apply sequential_snoc.
  - split; [assumption |]. split; [assumption |]. now apply sequential_snoc.
  - split; [assumption |]. split; [assumption |].
    pose proof (to_datetime_series_length R _ _ Hdates) as Hlen.
    rewrite length_map in Hlen.
    rewrite (map_logged_LogID _ _ (aggregated_rows_logged _ _ Hlen)).
    unfold count. rewrite (aggregated_rows_length _ _ Hlen). exact Hl.
Qed.

(** X6: foreign keys stay resolved.  When every definition names a subject
    of the subjects table and every score a definition of the definitions
    table, the same holds after any call: a write with an unknown parent
    is refused and no row is ever removed. *)
Theorem foreign_keys_stay_resolved (R : Runtime) (st st' : tracker) :
  step R st st' -> keys_resolve (dataframes st) -> keys_resolve (dataframes st').
Proof.
  intros Hstep (Hd & Hr). unfold keys_resolve.
  destruct (step_effect R st st' Hstep)
    as [| now label _ _ df | n name desc _ (s0 & Hs0 & Hid) df
        | n t sc notes _ (d0 & Hd0 & Hid) df | dates Hne Hdates];
    cbn.
  - auto.
  - split; [| assumption]. intros d Hin. destruct (Hd d Hin) as (s & Hs & E).
    exists s. split; [subst df; apply in_or_app; now left | assumption].
  - split.
    + subst df. intros d Hin. apply in_app_or in Hin as [Hin | [<- | []]]; [auto |].
      now exists s0.
    + intros r Hin. destruct (Hr r Hin) as (d & Hin' & E).
      exists d. split; [subst df; apply in_or_app; now left | assumption].
  - split; [assumption |].
    intros r Hin. apply in_app_or in Hin as [Hin | [<- | []]]; [auto |].
    now exists d0.
  - split; [assumption |].
    intros r Hin. apply in_aggregated_rows_source in Hin as (r0 & o & Hr0 & _ & ->).
    exact (Hr r0 Hr0).
Qed.

(** X7: labels stay distinct.  When no two subjects share a label up to
    letter case and every stored label is non-empty and trimmed, the same
    holds after any call. *)
Theorem labels_stay_distinct (R : Runtime) (st st' : tracker) :
  step R st st' -> labels_distinct (dataframes st) -> labels_distinct (dataframes st').
Proof.
  intros Hstep (Hnd & Hl). unfold labels_distinct.
  destruct (step_effect R st st' Hstep)
    as [| now label Hne Hnew df | n name desc _ _ df | n t sc notes _ _ df
        | dates _ _];
    cbn; auto.
  subst df. split.
  - rewrite map_app. cbn. apply NoDup_snoc; [assumption |].
    intros Hin. apply in_map_iff in Hin as (s & E & Hs). exact (Hnew s Hs E).
  - intros s Hin. apply in_app_or in Hin as [Hin | [<- | []]]; [auto |].
    cbn. split; [assumption | apply strip_strip].
Qed.

(** X8: scores stay within 1..10.  When every stored score is between 1
    and 10, so is every stored score after any call. *)
Theorem scores_stay_in_range (R : Runtime) (st st' : tracker) :
  step R st st' -> scores_in_range (dataframes st) -> scores_in_range (dataframes st').
Proof.
  intros Hstep Hr. unfold scores_in_range.
  destruct (step_effect R st st' Hstep)
    as [| now label _ _ df | n name desc _ _ df | n t sc notes Hsc _ df
        | dates _ _];
    cbn; auto.
  - intros r Hin. apply in_app_or in Hin as [Hin | [<- | []]]; [auto | exact Hsc].
  - intros r Hin. apply in_aggregated_rows_source in Hin as (r0 & o & Hr0 & _ & ->).
    exact (Hr r0 Hr0).
Qed.

(** X9: the files keep up with memory.  When the subjects, definitions and
    averages files equal the tables in memory and the [daily_scores] file
    holds the logged cells ([LogID], [DefinitionID], [Score], [Notes]) of
    the table in memory, the same holds after any call: every write is
    saved at once, and what the aggregation rewrites in memory only are
    dates and helper columns. *)
Theorem files_stay_current (R : Runtime) (st st' : tracker) :
  step R st st' -> files_current st -> files_current st'.
Proof.
  intros Hstep (Hs & Hd & Ha & Hl). unfold files_current.
  destruct (step_effect R st st' Hstep)
    as [| now label _ _ df | n name desc _ _ df | n t sc notes _ _ df
        | dates _ Hdates];
    cbn.
  - auto.
  - unfold averages in *. cbn. auto.
  - unfold averages in *. cbn. auto.
  - unfold averages in *. cbn. auto.
  - unfold averages. cbn. repeat split; try assumption.
    pose proof (to_datetime_series_length R _ _ Hdates) as Hlen.
    rewrite length_map in Hlen.
    now rewrite (aggregated_rows_logged _ _ Hlen).
Qed.

(** X10: nothing is deleted or edited.  While every ID is below the
    largest [int64], any call leaves the subjects and definitions it found
    as they are and at the head of their tables, leaves the logged cells
    of every score as they are, and adds at most one row to the three
    tables together. *)
Theorem calls_only_append (R : Runtime) (st st' : tracker) :
  step R st st' ->
  ids_below_int64_max (dataframes st) ->
  exists new_subjects new_definitions new_scores,
    subjects (dataframes st') = subjects (dataframes st) ++ new_subjects /\
    definitions (dataframes st') = definitions (dataframes st) ++ new_definitions /\
    map logged (rows (daily_scores (dataframes st')))
    = map logged (rows (daily_scores (dataframes st))) ++ map logged new_scores /\
    (List.length new_subjects + List.length new_definitions
     + List.length new_scores <= 1)%nat.
Proof.
  intros Hstep _.
  destruct (step_effect R st st' Hstep)
    as [| now label _ _ df | n name desc _ _ df | n t sc notes _ _ df
        | dates _ Hdates].
  - exists [], [], []. cbn. rewrite !app_nil_r. repeat split; lia.
  - eexists [_], [], []. cbn. rewrite !app_nil_r. repeat split; lia.
  - eexists [], [_], []. cbn. rewrite !app_nil_r. repeat split; lia.
  - eexists [], [], [_]. cbn. rewrite !app_nil_r, map_app. repeat split; lia.
  - exists [], [], []. cbn. rewrite !app_nil_r.
    pose proof (to_datetime_series_length R _ _ Hdates) as Hlen.
    rewrite length_map in Hlen.
    rewrite (aggregated_rows_logged _ _ Hlen). repeat split; lia.
Qed.

(** ** What the averages tables hold *)

Section TableFacts.

Lemma with_AverageID_map {B : Type} (f : average -> B) (h : key * Q * Z -> B)
    (g : list (key * Q * Z)) :
  (forall i k m c,
     f (mkAverage i (fst (fst k)) (snd (fst k)) (snd k) m c) = h (k, m, c)) ->
  map f (with_AverageID g) = map h g.
Proof.
  intros Hf. unfold with_AverageID.
  assert (H : forall (ids : list Z),
             List.length ids = List.length g ->
             map f (map (fun '(i, (k, m, c)) =>
                           mkAverage i (fst (fst k)) (snd (fst k)) (snd k) m c)
                        (combine ids g))
             = map h g).
  { induction g as [| [[k m] c] g IH]; intros [| i ids]; cbn; try discriminate;
      [reflexivity |].
    intros [= Hl]. now rewrite (IH _ Hl), Hf. }
  apply H. rewrite range_length. unfold count. rewrite Z.add_simpl_r. apply Nat2Z.id.
Qed.

(** Every row of a table is the row of a group of the frame. *)
Lemma averages_by_sound (period : score -> option Z) (df : list score) (a : average) :
  In a (averages_by period df) ->
  exists r,
    In r df /\ by_columns period r = Some (key_of_average a) /\
    AverageScore a
    = mean (map Score (filter (in_group (by_columns period) (key_of_average a)) df)) /\
    DataPointsCount a
    = count (filter (in_group (by_columns period) (key_of_average a)) df).
Proof.
  unfold averages_by, with_AverageID. intros Hin.
  apply in_map_iff in Hin as ([i [[k m] c]] & <- & Hin).
  apply in_combine_r in Hin. unfold groupby_mean_count in Hin.
  apply in_map_iff in Hin as (k' & [= -> <- <-] & Hk).
  apply in_sorted_keys, in_keys_of in Hk as (r & Hr & Hcols).
  exists r. unfold key_of_average; cbn. destruct k as [[k1 k2] k3]. cbn. auto.
Qed.

Lemma group_member (cols : score -> option key) (df : list score) (r : score) (k : key) :
  In r df -> cols r = Some k -> In r (filter (in_group cols k) df).
Proof.
  intros Hr Hk. apply filter_In. split; [assumption |].
  unfold in_group. rewrite Hk. now apply key_eqb_eq.
Qed.

Lemma sum_bounds (xs : list Z) (lo hi : Z) :
  (forall x, In x xs -> lo <= x <= hi) ->
  lo * count xs <= Groupby.sum xs <= hi * count xs.
Proof.
  unfold count. induction xs as [| x xs IH]; intros H; cbn [Groupby.sum fold_right List.length].
  - lia.
  - assert (Hx := H x (or_introl eq_refl)).
    assert (IH' := IH (fun y Hy => H y (or_intror Hy))).
    fold (Groupby.sum xs). lia.
Qed.

(** A mean lies between the bounds of what it averages. *)
Lemma mean_bounds (xs : list Z) (lo hi : Z) :
  xs <> [] ->
  (forall x, In x xs -> lo <= x <= hi) ->
  (inject_Z lo <= mean xs /\ mean xs <= inject_Z hi)%Q.
Proof.
  intros Hne H. pose proof (sum_bounds xs lo hi H) as [H1 H2].
  assert (Hc : 0 < count xs) by (unfold count; destruct xs; [contradiction | cbn; lia]).
  unfold mean. rewrite Qred_correct. unfold Qle; cbn.
  rewrite Z2Pos.id by assumption. lia.
Qed.

Lemma sum_app_map (f g : key -> Z) (ks : list key) :
  Groupby.sum (map (fun k => f k + g k) ks)
  = Groupby.sum (map f ks) + Groupby.sum (map g ks).
Proof.
  induction ks as [| k ks IH]; cbn; [reflexivity |].
  unfold Groupby.sum in *. cbn. lia.
Qed.

Lemma sum_zero (ks : list key) (f : key -> Z) :
  (forall k, In k ks -> f k = 0) -> Groupby.sum (map f ks) = 0.
Proof.
  induction ks as [| k ks IH]; intros H; [reflexivity |].
  cbn. rewrite (H k (or_introl eq_refl)). cbn.
  apply IH. intros k' Hk'. apply H. now right.
Qed.

Lemma sum_indicator (ks : list key) (k0 : key) :
  NoDup ks -> In k0 ks ->
  Groupby.sum (map (fun k => if key_eqb k k0 then 1 else 0) ks) = 1.
Proof.
  induction 1 as [| k ks Hk Hnd IH]; [contradiction |].
  intros [-> | Hin]; cbn.
  - rewrite (proj2 (key_eqb_eq k0 k0) eq_refl).
    fold (Groupby.sum (map (fun k => if key_eqb k k0 then 1 else 0) ks)).
    rewrite sum_zero; [reflexivity |].
    intros k Hin. destruct (key_eqb k k0) eqn:E; [| reflexivity].
    apply key_eqb_eq in E. subst. contradiction.
  - destruct (key_eqb k k0) eqn:E.
    + apply key_eqb_eq in E. subst. contradiction.
    + fold (Groupby.sum (map (fun k => if key_eqb k k0 then 1 else 0) ks)).
      now rewrite IH.
Qed.

(** Over distinct keys that cover the frame, the group sizes add up to
    the number of rows that have a key. *)
Lemma group_sizes_add_up (cols : score -> option key) (df : list score) (ks : list key) :
  NoDup ks ->
  (forall k, In k (keys_of cols df) -> In k ks) ->
  Groupby.sum (map (fun k => count (filter (in_group cols k) df)) ks)
  = count (keys_of cols df).
Proof.
  intros Hnd. induction df as [| r df IH]; intros Hcover.
  - cbn. apply sum_zero. reflexivity.
  - assert (Hcover' : forall k, In k (keys_of cols df) -> In k ks).
    { intros k Hk. apply Hcover. unfold keys_of in *. cbn. apply in_or_app. now right. }
    specialize (IH Hcover').
    rewrite (map_ext _ (fun k => (if in_group cols k r then 1 else 0)
                                 + count (filter (in_group cols k) df))).
    2:{ intros k. cbn. destruct (in_group cols k r); unfold count; cbn [List.length]; lia. }
    rewrite sum_app_map, IH.
    unfold keys_of, in_group. cbn [flat_map].
    destruct (cols r) as [k0 |] eqn:E.
    + rewrite sum_indicator; [| assumption |].
      * unfold count. cbn [app List.length]. lia.
      * apply Hcover. unfold keys_of. cbn. rewrite E. now left.
    + rewrite sum_zero by reflexivity. reflexivity.
Qed.

Lemma keys_of_dated (period : score -> option Z) (df : list score)
    (dates : list (option timestamp)) :
  (forall r o, period (aggregated r o) = None <-> o = None) ->
  count (keys_of (by_columns period) (aggregated_rows df dates))
  = count (filter dated (aggregated_rows df dates)).
Proof.
  intros Hp. unfold count, aggregated_rows. f_equal. revert dates.
  induction df as [| r df IH]; intros [| o dates]; try reflexivity.
  cbn [combine map]. unfold keys_of in *. cbn [flat_map filter].
  rewrite length_app, IH.
  unfold by_columns, dated. cbn [aggregated score_Year Date score_DefinitionID].
  rewrite dt_datetime64.
  destruct o as [t |]; cbn [option_map]; [| reflexivity].
  destruct (period (aggregated r (Some t))) eqn:Ep; [reflexivity |].
  apply Hp in Ep. discriminate.
Qed.

End TableFacts.

Section OrderFacts.






End OrderFacts.

(** X11: averages stay within the scores' bounds.  After a run over
    scores that all lie between [lo] and [hi] (1 and 10 for scores that
    [log_score] stored), the mean of every row of the three tables lies
    between [lo] and [hi], and every row stands for at least one score.
    The scores are few and small enough for [float64] to hold each of
    their sums exactly; [lo] and [hi] are then [float64] values, and the
    mean is the exact quotient that the code rounds to the nearest one. *)
Theorem averages_within_score_range (R : Runtime) (st st' : tracker) (lo hi : Z) :
  rows (daily_scores (dataframes st)) <> [] ->
  calculate_all_averages R st = (Return tt, st') ->
  (forall r, In r (rows (daily_scores (dataframes st))) -> lo <= Score r <= hi) ->
  count (rows (daily_scores (dataframes st))) * Z.max (Z.abs lo) (Z.abs hi)
  <= float64_exact_max ->
  forall table a,
    In table [weekly_averages (dataframes st'); monthly_averages (dataframes st');
              semi_annual_averages (dataframes st')] ->
    In a table ->
    (inject_Z lo <= AverageScore a /\ AverageScore a <= inject_Z hi)%Q /\
    1 <= DataPointsCount a.
Proof.
  intros Hne Hrun Hbound _ table a Htable Ha.
  destruct (calculate_all_averages_cases R st)
    as [[E _] | [(_ & _ & E) | (dates & _ & Hd & E)]];
    [contradiction | congruence |].
  rewrite E in Hrun. injection Hrun as <-.
  assert (Hby : exists period,
             In a (averages_by period
                     (aggregated_rows (rows (daily_scores (dataframes st))) dates))).
  { destruct Htable as [<- | [<- | [<- | []]]]; cbn in Ha; eauto. }
  destruct Hby as (period & Hin).
  destruct (averages_by_sound period _ a Hin) as (r & Hr & Hk & Hmean & Hcount).
  pose proof (group_member _ _ r _ Hr Hk) as Hg.
  rewrite Hmean, Hcount. split.
  - apply mean_bounds.
    + intros Hnil. apply (in_map Score) in Hg. rewrite Hnil in Hg. contradiction.
    + intros x Hx. apply in_map_iff in Hx as (r' & <- & Hr').
      apply filter_In in Hr' as [Hr' _].
      apply in_aggregated_rows_source in Hr' as (r0 & o & Hr0 & _ & ->).
      exact (Hbound r0 Hr0).
  - unfold count. destruct (filter _ _); [contradiction | cbn; lia].
Qed.

(** X12: every dated score is counted once.  After a run, the
    [DataPointsCount] column of each of the three tables adds up to the
    number of rows of [daily_scores] whose date is a timestamp: no score
    is counted twice or in two buckets, and only a row whose date is
    [NaT] is left out. *)
Theorem every_dated_score_is_counted_once (R : Runtime) (st st' : tracker) :
  rows (daily_scores (dataframes st)) <> [] ->
  calculate_all_averages R st = (Return tt, st') ->
  forall table,
    In table [weekly_averages (dataframes st'); monthly_averages (dataframes st');
              semi_annual_averages (dataframes st')] ->
    Groupby.sum (map DataPointsCount table)
    = count (filter dated (rows (daily_scores (dataframes st')))).
Proof.
  intros Hne Hrun table Htable.
  destruct (calculate_all_averages_cases R st)
    as [[E _] | [(_ & _ & E) | (dates & _ & Hd & E)]];
    [contradiction | congruence |].
  rewrite E in Hrun. injection Hrun as <-.
  assert (Hsum : forall period,
             (forall r o, period (aggregated r o) = None <-> o = None) ->
             Groupby.sum
               (map DataPointsCount
                  (averages_by period
                     (aggregated_rows (rows (daily_scores (dataframes st))) dates)))
             = count (filter dated
                        (aggregated_rows (rows (daily_scores (dataframes st))) dates))).
  { intros period Hp. unfold averages_by.
    rewrite (with_AverageID_map DataPointsCount snd) by reflexivity.
    unfold groupby_mean_count. rewrite map_map. cbn [snd].
    rewrite group_sizes_add_up.
    - now apply keys_of_dated.
    - apply sorted_NoDup, sorted_keys_sorted.
    - intros k Hk. now apply in_sorted_keys. }
  destruct Htable as [<- | [<- | [<- | []]]]; cbn; apply Hsum;
    intros r [t |]; cbn; split; congruence.
Qed.

(** X13: the period columns hold calendar values.  After a run whose
    converted dates are calendar dates, every [WeekOfYear] is between 1
    and 53, every [Month] between 1 and 12 and every [Half] is 1 or 2. *)
Theorem periods_are_calendar_values
    (R : Runtime) (st : tracker) (dates : list (option timestamp)) :
  rows (daily_scores (dataframes st)) <> [] ->
  to_datetime_series R (map Date (rows (daily_scores (dataframes st)))) = Some dates ->
  (forall t, In (Some t) dates -> valid_date (ts_date t)) ->
  let st' := snd (calculate_all_averages R st) in
  (forall a, In a (weekly_averages (dataframes st')) -> 1 <= WeekOfYear a <= 53) /\
  (forall a, In a (monthly_averages (dataframes st')) -> 1 <= Month a <= 12) /\
  (forall a, In a (semi_annual_averages (dataframes st')) -> 1 <= Half a <= 2).
Proof.
  intros Hne Hd Hvalid. cbv zeta.
  rewrite (calculate_all_averages_returns R st dates Hne Hd). cbn.
  assert (Hrow : forall period a,
             In a (averages_by period
                     (aggregated_rows (rows (daily_scores (dataframes st))) dates)) ->
             exists r0 t,
               valid_date (ts_date t) /\
               by_columns period (aggregated r0 (Some t)) = Some (key_of_average a)).
  { intros period a Ha.
    destruct (averages_by_sound period _ a Ha) as (r & Hr & Hk & _).
    apply in_aggregated_rows_source in Hr as (r0 & o & _ & Ho & ->).
    destruct o as [t |]; [| discriminate].
    exists r0, t. split; [now apply Hvalid | assumption]. }
  split; [| split]; intros a Ha; destruct (Hrow _ a Ha) as (r0 & t & Hv & Hk);
    unfold by_columns, key_of_average in Hk; cbn in Hk; injection Hk as _ _ Hp.
  - unfold WeekOfYear. rewrite <- Hp. now apply isocalendar_iso8601.
  - unfold Month. rewrite <- Hp.
    unfold valid_date, valid_dateb in Hv.
    rewrite !andb_true_iff, !Z.leb_le in Hv. lia.
  - unfold Half. rewrite <- Hp.
    unfold valid_date, valid_dateb in Hv.
    rewrite !andb_true_iff, !Z.leb_le in Hv.
    destruct Hv as [[[H1 H2] _] _]. Z.to_euclidean_division_equations; lia.
Qed.


(** X15: the first score logged after an aggregation takes the helper
    columns to disk.  [log_score] appends to the frame the aggregation has
    rewritten and saves it whole: the [daily_scores] file then has the
    columns [Year], [WeekOfYear], [Month] and [Half], its [Date] column
    holds the converted timestamps followed by the new date as text, and
    the new row has no value in the helper columns. *)
Theorem log_score_after_aggregation_saves_helper_columns
    (R : Runtime) (st : tracker) (dates : list (option timestamp))
    (definition_id date score : pyval) (notes : string)
    (n s : Z) (t : timestamp) (row : definition) :
  rows (daily_scores (dataframes st)) <> [] ->
  to_datetime_series R (map Date (rows (daily_scores (dataframes st)))) = Some dates ->
  py_int R definition_id = Return n ->
  py_int R score = Return s ->
  1 <= s <= 10 ->
  In row (definitions (dataframes st)) -> DefinitionID row = n ->
  to_datetime R date = Return (Stamp t) ->
  let st1 := snd (calculate_all_averages R st) in
  let st2 := snd (log_score R definition_id date score notes st1) in
  daily_scores (files st2) = daily_scores (dataframes st2) /\
  (forall name, In name ["Year"; "WeekOfYear"; "Month"; "Half"]%string ->
                In name (extra_columns (daily_scores (files st2)))) /\
  map Date (rows (daily_scores (files st2)))
  = map datetime64 dates ++ [DateStr (strftime_Ymd (ts_date t))] /\
  exists new,
    rows (daily_scores (files st2))
    = aggregated_rows (rows (daily_scores (dataframes st))) dates ++ [new] /\
    Score new = s /\ score_DefinitionID new = n /\
    score_Year new = None /\ score_WeekOfYear new = None /\
    score_Month new = None /\ score_Half new = None.
Proof.
  intros Hne Hd Hn Hs Hrange Hrow Hid Hdate. cbv zeta.
  rewrite (calculate_all_averages_returns R st dates Hne Hd). cbn [snd].
  pose proof (to_datetime_series_length R _ _ Hd) as Hlen. rewrite length_map in Hlen.
  unfold log_score. rewrite Hn, Hs.
  assert (Hr : (1 <=? s) && (s <=? 10) = true)
    by (apply andb_true_iff; split; apply Z.leb_le; lia).
  rewrite Hr. cbn [negb].
  assert (Hdefs : definitions (dataframes (aggregation_result st dates))
                  = definitions (dataframes st)) by reflexivity.
  rewrite Hdefs, (nonempty_filter _ _ row Hrow) by (now apply Z.eqb_eq).
  rewrite Hdate. cbn.
  split; [reflexivity |]. split.
  - intros name Hin. unfold aggregated_columns. rewrite !in_add_column.
    cbn in Hin. intuition congruence.
  - split.
    + rewrite map_app. cbn. now rewrite aggregated_rows_Date.
    + eexists. split; [reflexivity |]. cbn. now repeat split.
Qed.

(** ** Start-up and the pages *)

Section StartupFacts.

Lemma table_eqb_eq (n m : table_name) : table_eqb n m = true <-> n = m.
Proof. destruct n, m; cbn; split; congruence. Qed.

Lemma create_missing_files (l : list table_name) :
  forall (files : table_name -> option csv_file) (m : table_name),
    file_of (fold_left create_if_missing l (Some files)) m
    = match files m with
      | Some c => Some c
      | None => if existsb (table_eqb m) l
                then Some (mkCsv (schema_cols m) [])
                else None
      end.
Proof.
  induction l as [| n l IH]; intros files m; cbn [fold_left existsb].
  - cbn. now destruct (files m).
  - unfold create_if_missing at 2, file_exists, to_csv. cbn [file_of].
    destruct (files n) as [c |] eqn:En; cbn [negb]; rewrite IH.
    + destruct (files m) eqn:Em; [reflexivity |].
      destruct (table_eqb m n) eqn:E; [| reflexivity].
      apply table_eqb_eq in E. congruence.
    + destruct (table_eqb m n) eqn:E.
      * apply table_eqb_eq in E. subst m. now rewrite En.
      * reflexivity.
Qed.

Lemma initialize_database_file (d : disk) (n : table_name) :
  file_of (initialize_database d) n
  = Some (match file_of d n with
          | Some c => c
          | None => mkCsv (schema_cols n) []
          end).
Proof.
  unfold initialize_database.
  destruct d as [files |]; cbn [dir_exists negb makedirs];
    rewrite create_missing_files; cbn [file_of].
  - destruct (files n); [reflexivity | now destruct n].
  - now destruct n.
Qed.

End StartupFacts.

(** X16: start-up creates what is missing and nothing else.  After
    [initialize_database] all six files exist; a file that was there is as
    it was, a file that was not holds the header of its table's columns
    and no record; and a second call changes no file. *)
Theorem initialize_database_creates_missing_only (d : disk) (n : table_name) :
  file_of (initialize_database d) n
  = Some (match file_of d n with
          | Some c => c
          | None => mkCsv (schema_cols n) []
          end) /\
  file_of (initialize_database (initialize_database d)) n
  = file_of (initialize_database d) n.
Proof.
  split; [apply initialize_database_file |].
  rewrite (initialize_database_file (initialize_database d)).
  now rewrite initialize_database_file.
Qed.

Section PageFacts.

Lemma filter_unique {A : Type} (f : A -> Z) (l : list A) (s : A) :
  NoDup (map f l) -> In s l -> filter (fun x => f x =? f s) l = [s].
Proof.
  induction l as [| a l IH]; cbn; [contradiction |].
  intros Hnd Hin. apply NoDup_cons_iff in Hnd as [Hna Hnd].
  destruct Hin as [-> | Hin].
  - rewrite Z.eqb_refl. f_equal.
    assert (Hempty : empty (filter (fun x => f x =? f s) l) = true).
    { apply empty_filter. intros x Hx. apply Z.eqb_neq. intros E.
      apply Hna. rewrite <- E. now apply in_map. }
    destruct (filter _ l); [reflexivity | discriminate].
  - destruct (Z.eqb_spec (f a) (f s)) as [E | _]; [| now apply IH].
    exfalso. apply Hna. rewrite E. now apply in_map.
Qed.

Lemma dict_set_fresh (k : Z) (v : string) (d : dict) :
  ~ In k (map fst d) -> dict_set k v d = d ++ [(k, v)].
Proof.
  induction d as [| [k' v'] d IH]; cbn; [reflexivity |].
  intros H. destruct (Z.eqb_spec k' k) as [E | _]; [exfalso; auto |].
  f_equal. apply IH. auto.
Qed.

Lemma to_dict_distinct (items acc : list (Z * string)) :
  NoDup (map fst (acc ++ items)) ->
  fold_left (fun d kv => dict_set (fst kv) (snd kv) d) items acc = acc ++ items.
Proof.
  revert acc. induction items as [| [k v] items IH]; intros acc Hnd; cbn.
  - now rewrite app_nil_r.
  - rewrite dict_set_fresh.
    + rewrite IH; rewrite <- app_assoc; [reflexivity | exact Hnd].
    + rewrite map_app in Hnd. apply NoDup_remove_2 in Hnd.
      intros Hin. apply Hnd. apply in_or_app. now left.
Qed.

Lemma dict_get_distinct (k : Z) (v : string) (d : dict) :
  NoDup (map fst d) -> In (k, v) d -> dict_get k d = Some v.
Proof.
  induction d as [| [k' v'] d IH]; cbn; [contradiction |].
  intros Hnd Hin. apply NoDup_cons_iff in Hnd as [Hna Hnd].
  destruct Hin as [[= -> ->] | Hin]; [now rewrite Z.eqb_refl |].
  destruct (Z.eqb_spec k' k) as [-> | _]; [| now apply IH].
  exfalso. apply Hna. now apply (in_map fst) in Hin.
Qed.

Lemma merged_ids (defs_df : list definition) (subjects_df : list subject) :
  NoDup (map SubjectID subjects_df) ->
  (forall d, In d defs_df ->
             exists s, In s subjects_df /\ SubjectID s = def_SubjectID d) ->
  map (fun m => DefinitionID (fst m)) (merge_on_SubjectID defs_df subjects_df)
  = map DefinitionID defs_df.
Proof.
  intros Hnd. unfold merge_on_SubjectID.
  induction defs_df as [| d defs IH]; intros Hres; [reflexivity |].
  cbn [flat_map]. rewrite map_app, IH by (intros d' Hd'; apply Hres; now right).
  destruct (Hres d (or_introl eq_refl)) as (s & Hs & <-).
  now rewrite (filter_unique SubjectID subjects_df s Hnd Hs).
Qed.

Lemma in_merged (defs_df : list definition) (subjects_df : list subject)
    (d : definition) (s : subject) :
  In (d, s) (merge_on_SubjectID defs_df subjects_df) <->
  In d defs_df /\ In s subjects_df /\ SubjectID s = def_SubjectID d.
Proof.
  unfold merge_on_SubjectID. rewrite in_flat_map. split.
  - intros (d' & Hd' & Hin). apply in_map_iff in Hin as (s' & [= -> ->] & Hs).
    apply filter_In in Hs as [Hs E]. apply Z.eqb_eq in E. auto.
  - intros (Hd & Hs & E). exists d. split; [assumption |].
    apply in_map. apply filter_In. split; [assumption | now apply Z.eqb_eq].
Qed.

Lemma insert_by_time_period_perm (a : average) (l : list average) :
  Permutation (insert_by_time_period a l) (a :: l).
Proof.
  induction l as [| b l IH]; cbn; [reflexivity |].
  destruct (String.leb (time_period a) (time_period b)); [reflexivity |].
  rewrite IH. apply perm_swap.
Qed.

Lemma insert_by_time_period_sorted (a : average) (l : list average) :
  Sorted (fun x y => String.leb (time_period x) (time_period y) = true) l ->
  Sorted (fun x y => String.leb (time_period x) (time_period y) = true)
         (insert_by_time_period a l).
Proof.
  induction l as [| b l IH]; cbn; [repeat constructor |].
  intros Hs. apply Sorted_inv in Hs as [Hs Hhd].
  destruct (String.leb (time_period a) (time_period b)) eqn:E.
  - constructor; [now constructor | now constructor].
  - constructor; [now apply IH |].
    assert (Hba : String.leb (time_period b) (time_period a) = true)
      by (destruct (String.leb_total (time_period a) (time_period b)); congruence).
    destruct l as [| c l]; cbn; [now constructor |].
    apply HdRel_inv in Hhd.
    destruct (String.leb (time_period a) (time_period c)); now constructor.
Qed.

Lemma compare_common_prefix (p a b : string) :
  String.compare (p ++ a) (p ++ b) = String.compare a b.
Proof.
  induction p as [| c p IH]; cbn; [reflexivity |].
  unfold Ascii.compare. now rewrite N.compare_refl.
Qed.

Lemma compare_digits (a b : Z) :
  0 <= a <= 9 -> 0 <= b <= 9 -> Ascii.compare (digit a) (digit b) = (a ?= b).
Proof.
  intros Ha Hb. unfold Ascii.compare, digit.
  rewrite !N_ascii_embedding by (Z.to_euclidean_division_equations; lia).
  rewrite !Z.mod_small by lia.
  rewrite (Z2N.inj_compare (48 + a) (48 + b)) by lia. apply Z.add_compare_mono_l.
Qed.

Lemma str_int_one_digit (n : Z) :
  0 <= n <= 9 -> str_int n = String (digit n) EmptyString.
Proof.
  intros H. unfold str_int.
  destruct (Z.ltb_spec n 0); [lia |]. cbn [digits_of].
  destruct (Z.ltb_spec n 10); [reflexivity | lia].
Qed.

Lemma str_int_two_digits (n : Z) :
  10 <= n <= 99 ->
  str_int n = String (digit (n / 10)) (String (digit n) EmptyString).
Proof.
  intros H. unfold str_int.
  destruct (Z.ltb_spec n 0); [lia |].
  destruct (Z.to_nat n) as [| k] eqn:E; [lia |].
  cbn [digits_of].
  destruct (Z.ltb_spec n 10); [lia |].
  destruct (Z.ltb_spec (n / 10) 10); [reflexivity |].
  Z.to_euclidean_division_equations; lia.
Qed.

End PageFacts.

(** X17: every behaviour is offered once.  When IDs are unique and every
    definition names a subject of the table, the options of the score form
    and of the chart list every definition exactly once, in the order of
    the definitions table, each labelled with its subject's label, [" - "]
    and its name. *)
Theorem every_definition_is_offered_once (t : tables) :
  ids_unique t -> keys_resolve t ->
  map fst (definition_options t) = map DefinitionID (definitions t) /\
  forall d s,
    In d (definitions t) -> In s (subjects t) -> SubjectID s = def_SubjectID d ->
    dict_get (DefinitionID d) (definition_options t)
    = Some (SubjectLabel s ++ " - " ++ BehaviorName d)%string.
Proof.
  intros (Hs & Hd & _) (Hres & _). unfold definition_options. cbv zeta.
  pose proof (merged_ids (definitions t) (subjects t) Hs Hres) as Hids.
  assert (Hnd : NoDup (map fst (map (fun m => (DefinitionID (fst m), display_label m))
                                    (merge_on_SubjectID (definitions t) (subjects t))))).
  { rewrite map_map. cbn [fst]. now rewrite Hids. }
  unfold to_dict. rewrite (to_dict_distinct _ [] Hnd). cbn [app].
  split.
  - rewrite map_map. exact Hids.
  - intros d s Hin Hsub E.
    apply (dict_get_distinct _ _ _ Hnd).
    apply in_map_iff. exists (d, s). split; [reflexivity |].
    now apply in_merged.
Qed.

(** X18: the weekly chart runs in the order of its labels' text.  The rows
    it draws are the weekly rows of the chosen behaviour, arranged so that
    each label [Year-Wweek] is at most the next one as a string.  That is
    not the order of the weeks: in one year, a week from 10 on comes
    before a week below 10 exactly when its first digit is smaller than
    that week, so weeks 10 to 19 come before week 2. *)
Theorem weekly_chart_is_in_text_order (t : tables) (behavior_to_plot : Z) :
  Permutation (plot_data t behavior_to_plot)
    (filter (fun a => avg_DefinitionID a =? behavior_to_plot) (weekly_averages t)) /\
  Sorted (fun a b => String.leb (time_period a) (time_period b) = true)
         (plot_data t behavior_to_plot) /\
  forall a b,
    Year a = Year b ->
    1 <= WeekOfYear a <= 9 -> 10 <= WeekOfYear b <= 53 ->
    String.ltb (time_period b) (time_period a) = (WeekOfYear b / 10 <? WeekOfYear a).
Proof.
  unfold plot_data, sort_values.
  split; [| split].
  - induction (filter _ (weekly_averages t)) as [| a l IH]; cbn; [reflexivity |].
    rewrite insert_by_time_period_perm. now constructor.
  - induction (filter _ (weekly_averages t)) as [| a l IH]; cbn; [constructor |].
    now apply insert_by_time_period_sorted.
  - intros a b Hy Ha Hb. unfold time_period, String.ltb. rewrite Hy.
    rewrite !compare_common_prefix.
    rewrite (str_int_one_digit (WeekOfYear a)), (str_int_two_digits (WeekOfYear b))
      by lia.
    cbn [String.compare].
    rewrite compare_digits by (Z.to_euclidean_division_equations; lia).
    destruct (Z.compare_spec (WeekOfYear b / 10) (WeekOfYear a)) as [E | E | E];
      destruct (Z.ltb_spec (WeekOfYear b / 10) (WeekOfYear a)); try lia; reflexivity.
Qed.

(** ** The statements at work on the sample trackers *)

Lemma stale_averages_stay :
  calculate_all_averages Reference.runtime stale = (Return tt, stale).
Proof.
  apply (empty_scores_leave_averages_untouched Reference.runtime stale).
  reflexivity.
Defined.

Lemma rex_average_ids :
  exists st',
    calculate_all_averages Reference.runtime rex_2024 = (Return tt, st') /\
    map AverageID (weekly_averages (dataframes st')) = [1; 2] /\
    map key_of_average (weekly_averages (dataframes st')) = [(1, 2024, 1); (1, 2024, 6)] /\
    map AverageID (monthly_averages (dataframes st')) = [1; 2] /\
    map key_of_average (monthly_averages (dataframes st')) = [(1, 2024, 1); (1, 2024, 2)] /\
    map AverageID (semi_annual_averages (dataframes st')) = [1] /\
    map key_of_average (semi_annual_averages (dataframes st')) = [(1, 2024, 1)].
Proof.
  eexists. split; [reflexivity |].
  destruct (average_ids_dense_and_deterministic Reference.runtime rex_2024 _
              ltac:(vm_compute; discriminate) eq_refl) as [H _].
  destruct (H _ _ (or_introl eq_refl)) as (Hw & Hwk & _).
  destruct (H _ _ (or_intror (or_introl eq_refl))) as (Hm & Hmk & _).
  destruct (H _ _ (or_intror (or_intror (or_introl eq_refl)))) as (Hh & Hhk & _).
  exact (conj Hw (conj Hwk (conj Hm (conj Hmk (conj Hh Hhk))))).
Defined.

Lemma rex_scores_rewritten_in_memory :
  exists st',
    calculate_all_averages Reference.runtime rex_new_year = (Return tt, st') /\
    map Date (rows (daily_scores (dataframes st')))
    = [DateStamp (mkStamp (mkDate 2023 1 1) 0)] /\
    (forall name, In name ["Year"; "WeekOfYear"; "Month"; "Half"]%string ->
                  In name (extra_columns (daily_scores (dataframes st')))) /\
    map Date (rows (daily_scores (files st'))) = [DateStr "2023-01-01"] /\
    averages (files st') = averages (dataframes st').
Proof.
  destruct (aggregation_rewrites_scores_in_memory_only Reference.runtime rex_new_year
              [Some (mkStamp (mkDate 2023 1 1) 0)])
    as (st' & Hrun & Hdate & _ & Hcols & Hfile & _ & _ & _ & _ & Havg).
  - vm_compute. discriminate.
  - reflexivity.
  - exists st'. repeat split; try assumption. now rewrite Hfile.
Defined.







Lemma new_year_2023_is_week_52_of_2022 :
  exists a,
    In a (weekly_averages
            (dataframes (snd (calculate_all_averages Reference.runtime rex_new_year)))) /\
    avg_DefinitionID a = 1 /\ Year a = 2022 /\ WeekOfYear a = 52 /\
    iso8601_week_date (mkDate 2023 1 1) 2022 52 /\
    DataPointsCount a = 1.
Proof.
  destruct (proj1 weekly_bucket_is_iso_week Reference.runtime rex_new_year
              (snd (calculate_all_averages Reference.runtime rex_new_year))
              (aggregated (mkScore 1 1 (DateStr "2023-01-01") 5 "" None None None None)
                          (Some (mkStamp (mkDate 2023 1 1) 0)))
              (mkDate 2023 1 1))
    as (a & Ha & Hdef & Hy & Hw & Hiso & Hcount & _ & _).
  - reflexivity.
  - left. reflexivity.
  - reflexivity.
  - reflexivity.
  - exists a. rewrite Hy, Hw in Hiso.
    exact (conj Ha (conj Hdef (conj Hy (conj Hw (conj Hiso Hcount))))).
Defined.

Lemma new_year_2023_is_filed_under_2022 :
  year (mkDate 2023 1 1) = 2023 /\
  (exists a,
     In a (monthly_averages
             (dataframes (snd (calculate_all_averages Reference.runtime rex_new_year)))) /\
     avg_DefinitionID a = 1 /\ Year a = 2022 /\ Month a = 1) /\
  (exists a,
     In a (semi_annual_averages
             (dataframes (snd (calculate_all_averages Reference.runtime rex_new_year)))) /\
     avg_DefinitionID a = 1 /\ Year a = 2022 /\ Half a = 1).
Proof.
  split; [reflexivity |].
  apply (monthly_and_half_year_is_iso_year Reference.runtime rex_new_year
           (snd (calculate_all_averages Reference.runtime rex_new_year))
           (aggregated (mkScore 1 1 (DateStr "2023-01-01") 5 "" None None None None)
                       (Some (mkStamp (mkDate 2023 1 1) 0)))
           (mkDate 2023 1 1)).
  - reflexivity.
  - left. reflexivity.
  - reflexivity.
Defined.

Lemma not_a_date_raises :
  log_score Reference.runtime (PyInt 1) (PyStr "not-a-date") (PyInt 5) "" rex
  = (Raise ValueError, rex).
Proof.
  apply (log_score_raises_on_unparseable_date Reference.runtime
           (PyInt 1) (PyStr "not-a-date") (PyInt 5) "" rex 1 5
           (mkDefinition 1 1 "Barking" "") ValueError).
  - reflexivity.
  - reflexivity.
  - lia.
  - left. reflexivity.
  - reflexivity.
  - reflexivity.
Defined.

(** A second subject, Mia, beside Rex. *)
Lemma rex_and_mia_have_distinct_labels :
  labels_distinct
    (dataframes (snd (add_subject "2024-06-01 09:30:00" (PyStr "Mia") rex))).
Proof.
  apply (labels_stay_distinct Reference.runtime rex).
  - apply step_add_subject.
  - split.
    + cbn. apply NoDup_cons; [intros [] | apply NoDup_nil].
    + intros s [<- | []]. split; [discriminate | reflexivity].
Defined.

Lemma rex_ids_unique_after_log : ids_unique (dataframes rex_new_year).
Proof.
  apply (ids_stay_unique Reference.runtime rex rex_new_year).
  - exact (step_log_score Reference.runtime
             (PyInt 1) (PyStr "2023-01-01") (PyInt 5) "" rex).
  - refine (conj _ (conj _ _)); cbn.
    + intros r [<- | []]. reflexivity.
    + intros r [<- | []]. reflexivity.
    + intros r [].
  - refine (conj _ (conj _ _)); cbn.
    + apply NoDup_cons; [intros [] | apply NoDup_nil].
    + apply NoDup_cons; [intros [] | apply NoDup_nil].
    + apply NoDup_nil.
Defined.

Lemma rex_new_year_reachable : reachable Reference.runtime rex_new_year.
Proof.
  apply (reachable_step Reference.runtime rex);
    [| exact (step_log_score Reference.runtime
                (PyInt 1) (PyStr "2023-01-01") (PyInt 5) "" rex)].
  apply (reachable_step Reference.runtime
           (snd (add_subject "2024-01-01 10:00:00" (PyStr " Rex ") fresh)));
    [| exact (step_add_behavior_definition Reference.runtime (PyInt 1) "Barking" ""
                (snd (add_subject "2024-01-01 10:00:00" (PyStr " Rex ") fresh)))].
  apply (reachable_step Reference.runtime fresh);
    [apply reachable_fresh | apply step_add_subject].
Defined.

Lemma rex_new_year_ids_sequential : ids_sequential (dataframes rex_new_year).
Proof.
  apply (ids_are_sequential Reference.runtime rex_new_year).
  exact rex_new_year_reachable.
Defined.

Lemma rex_second_definition_resolves :
  keys_resolve
    (dataframes (snd (add_behavior_definition Reference.runtime
                        (PyStr " 1 ") "Jumping" "on visitors" rex))).
Proof.
  apply (foreign_keys_stay_resolved Reference.runtime rex).
  - apply step_add_behavior_definition.
  - split.
    + intros d [<- | []]. exists (mkSubject 1 "Rex" "2024-01-01 10:00:00").
      split; [left |]; reflexivity.
    + intros r [].
Defined.

Lemma rex_new_year_score_in_range : scores_in_range (dataframes rex_new_year).
Proof.
  apply (scores_stay_in_range Reference.runtime rex rex_new_year).
  - exact (step_log_score Reference.runtime
             (PyInt 1) (PyStr "2023-01-01") (PyInt 5) "" rex).
  - intros r [].
Defined.

Lemma rex_files_current_after_aggregation :
  files_current (snd (calculate_all_averages Reference.runtime rex_new_year)).
Proof.
  apply (files_stay_current Reference.runtime rex_new_year).
  - apply step_calculate_all_averages.
  - refine (conj _ (conj _ (conj _ _))); reflexivity.
Defined.

Lemma first_subject_is_appended :
  exists new_subjects new_definitions new_scores,
    subjects (dataframes (snd (add_subject "2024-01-01 10:00:00" (PyStr " Rex ") fresh)))
    = subjects (dataframes fresh) ++ new_subjects /\
    definitions (dataframes (snd (add_subject "2024-01-01 10:00:00" (PyStr " Rex ") fresh)))
    = definitions (dataframes fresh) ++ new_definitions /\
    map logged
      (rows (daily_scores
               (dataframes (snd (add_subject "2024-01-01 10:00:00" (PyStr " Rex ") fresh)))))
    = map logged (rows (daily_scores (dataframes fresh))) ++ map logged new_scores /\
    (List.length new_subjects + List.length new_definitions
     + List.length new_scores <= 1)%nat.
Proof.
  apply (calls_only_append Reference.runtime fresh).
  - apply step_add_subject.
  - refine (conj _ (conj _ _)); intros r [].
Defined.

Lemma rex_averages_between_1_and_10 :
  let a := mkAverage 1 1 2022 52 5 1 in
  (inject_Z 1 <= AverageScore a /\ AverageScore a <= inject_Z 10)%Q /\
  1 <= DataPointsCount a.
Proof.
  cbv zeta.
  apply (averages_within_score_range Reference.runtime rex_new_year
           (snd (calculate_all_averages Reference.runtime rex_new_year)) 1 10
           ltac:(vm_compute; discriminate) eq_refl
           ltac:(intros r [<- | []]; cbn; lia)
           ltac:(vm_compute; discriminate)
           [mkAverage 1 1 2022 52 5 1]).
  - left. reflexivity.
  - left. reflexivity.
Defined.

Lemma rex_scores_counted_once :
  Groupby.sum
    (map DataPointsCount
       (monthly_averages
          (dataframes (snd (calculate_all_averages Reference.runtime rex_new_year)))))
  = 1.
Proof.
  apply (every_dated_score_is_counted_once Reference.runtime rex_new_year
           (snd (calculate_all_averages Reference.runtime rex_new_year))
           ltac:(vm_compute; discriminate) eq_refl).
  right. left. reflexivity.
Defined.

Lemma rex_periods_are_calendar_values :
  (forall a,
     In a (weekly_averages
             (dataframes (snd (calculate_all_averages Reference.runtime rex_new_year)))) ->
     1 <= WeekOfYear a <= 53) /\
  (forall a,
     In a (monthly_averages
             (dataframes (snd (calculate_all_averages Reference.runtime rex_new_year)))) ->
     1 <= Month a <= 12) /\
  (forall a,
     In a (semi_annual_averages
             (dataframes (snd (calculate_all_averages Reference.runtime rex_new_year)))) ->
     1 <= Half a <= 2).
Proof.
  apply (periods_are_calendar_values Reference.runtime rex_new_year
           [Some (mkStamp (mkDate 2023 1 1) 0)]).
  - vm_compute. discriminate.
  - reflexivity.
  - intros t [[= <-] | []]. reflexivity.
Defined.


Lemma score_after_aggregation_saves_helper_columns :
  let st2 := snd (log_score Reference.runtime (PyInt 1) (PyStr "2023-01-08") (PyInt 7) ""
                    (snd (calculate_all_averages Reference.runtime rex_new_year))) in
  extra_columns (daily_scores (files st2)) = ["Year"; "WeekOfYear"; "Month"; "Half"]%string /\
  map Date (rows (daily_scores (files st2)))
  = [DateStamp (mkStamp (mkDate 2023 1 1) 0); DateStr "2023-01-08"] /\
  map score_Year (rows (daily_scores (files st2))) = [Some 2022; None].
Proof.
  destruct (log_score_after_aggregation_saves_helper_columns Reference.runtime rex_new_year
              [Some (mkStamp (mkDate 2023 1 1) 0)]
              (PyInt 1) (PyStr "2023-01-08") (PyInt 7) "" 1 7
              (mkStamp (mkDate 2023 1 8) 0) (mkDefinition 1 1 "Barking" ""))
    as (_ & _ & Hdates & _).
  - vm_compute. discriminate.
  - reflexivity.
  - reflexivity.
  - reflexivity.
  - lia.
  - left. reflexivity.
  - reflexivity.
  - reflexivity.
  - cbv zeta. refine (conj _ (conj Hdates _)); reflexivity.
Defined.

Lemma rex_barking_is_offered :
  map fst (definition_options (dataframes rex)) = [1] /\
  dict_get 1 (definition_options (dataframes rex)) = Some "Rex - Barking"%string.
Proof.
  destruct (every_definition_is_offered_once (dataframes rex)) as [Hkeys Hget].
  - refine (conj _ (conj _ _)); cbn.
    + apply NoDup_cons; [intros [] | apply NoDup_nil].
    + apply NoDup_cons; [intros [] | apply NoDup_nil].
    + apply NoDup_nil.
  - split.
    + intros d [<- | []]. exists (mkSubject 1 "Rex" "2024-01-01 10:00:00").
      split; [left |]; reflexivity.
    + intros r [].
  - split; [exact Hkeys |].
    apply (Hget (mkDefinition 1 1 "Barking" "") (mkSubject 1 "Rex" "2024-01-01 10:00:00"));
      [left; reflexivity | left; reflexivity | reflexivity].
Defined.

Lemma week_10_is_drawn_before_week_2 :
  plot_data weeks_2_and_10 1 = [mkAverage 2 1 2024 10 6 1; mkAverage 1 1 2024 2 4 1] /\
  String.ltb (time_period (mkAverage 2 1 2024 10 6 1))
             (time_period (mkAverage 1 1 2024 2 4 1)) = true.
Proof.
  split; [reflexivity |].
  destruct (weekly_chart_is_in_text_order weeks_2_and_10 1) as (_ & _ & Horder).
  rewrite (Horder (mkAverage 1 1 2024 2 4 1) (mkAverage 2 1 2024 10 6 1));
    [reflexivity | reflexivity | cbn; lia | cbn; lia].
Defined.

Lemma start_up_in_an_empty_directory :
  file_of (initialize_database None) t_subjects
  = Some (mkCsv ["SubjectID"; "SubjectLabel"; "DateCreated"]%string []) /\
  file_of (initialize_database (initialize_database None)) t_subjects
  = file_of (initialize_database None) t_subjects.
Proof.
  exact (initialize_database_creates_missing_only None t_subjects).
Defined.
